(** * PR reviewer webhook handler (webhook-handler.http.ts)

    A shallow embedding of the webhook handler and of the properties its
    design documents state about it.  The TypeScript source is one module:
    a bot detector, a GitHub API client, a comment service, a payload
    validator and the HTTP entry point.  Each is transcribed below; the
    platform the handler runs on (environment lookup, JSON parsing, fetch,
    the clock, number printing) is an explicit [runtime] argument. *)

From Stdlib Require Import String Ascii List Bool Arith ZArith QArith Lia.
From Stdlib Require Import DecimalString.
Import ListNotations.

Local Open Scope string_scope.

(** ** The fragment of JavaScript the handler relies on *)

Module JS.

(** Strings are sequences of code units; the embedding keeps the code units
    below 256, which [Ascii.ascii] covers. *)

(** [s.endsWith(search)]: the last [search.length] code units of [s] are
    compared with [search]; a [search] longer than [s] never matches. *)
Definition endsWith (s search : string) : bool :=
  let len := String.length s in
  let searchLength := String.length search in
  if (len <? searchLength)%nat then false
  else String.eqb (substring (len - searchLength) searchLength s) search.

(** [s.includes(search)]: [search] occurs at some position of [s]. *)
Fixpoint includes (s search : string) : bool :=
  prefix search s ||
  match s with
  | EmptyString => false
  | String _ rest => includes rest search
  end.

(** White space as [String.prototype.trim] sees it, among code units below
    256: TAB, LF, VT, FF, CR, SPACE and NO-BREAK SPACE. *)
Definition isWhiteSpace (c : ascii) : bool :=
  let n := nat_of_ascii c in
  ((9 <=? n) && (n <=? 13) || (n =? 32) || (n =? 160))%nat.

Fixpoint trimStart (s : string) : string :=
  match s with
  | EmptyString => EmptyString
  | String c rest => if isWhiteSpace c then trimStart rest else s
  end.

Fixpoint trimEnd (s : string) : string :=
  match s with
  | EmptyString => EmptyString
  | String c rest =>
      let rest' := trimEnd rest in
      if isWhiteSpace c && String.eqb rest' EmptyString then EmptyString
      else String c rest'
  end.

Definition trim (s : string) : string := trimEnd (trimStart s).

(** [parts.join(sep)] on an array of strings. *)
Definition join (sep : string) (parts : list string) : string :=
  String.concat sep parts.

(** Numbers.  A finite double is kept as the rational it denotes (both
    zeros are [Finite 0]); the program never does arithmetic on them. *)
Inductive number : Type :=
| Finite (q : Q)
| PosInfinity
| NegInfinity
| NaN.

Definition ofZ (z : Z) : number := Finite (inject_Z z).

(** Values a request body can decode to, together with [undefined]. *)
#[warnings="-register-all"]
Inductive value : Type :=
| Undefined
| Null
| Bool (b : bool)
| Num (n : number)
| Str (s : string)
| Arr (items : list value)
| Obj (members : list (string * value)).

Definition typeof (v : value) : string :=
  match v with
  | Undefined => "undefined"
  | Null => "object"
  | Bool _ => "boolean"
  | Num _ => "number"
  | Str _ => "string"
  | Arr _ => "object"
  | Obj _ => "object"
  end.

(** ToBoolean; [!v] is [negb (truthy v)]. *)
Definition truthy (v : value) : bool :=
  match v with
  | Undefined => false
  | Null => false
  | Bool b => b
  | Num (Finite q) => negb (Qeq_bool q 0)
  | Num NaN => false
  | Num _ => true
  | Str s => negb (String.eqb s EmptyString)
  | Arr _ => true
  | Obj _ => true
  end.

(** Own member of an object.  [members] lists them in document order and,
    as in [JSON.parse], the last of several members of one name wins. *)
Fixpoint member (members : list (string * value)) (name : string) : option value :=
  match members with
  | [] => None
  | (k, v) :: rest =>
      match member rest name with
      | Some later => Some later
      | None => if String.eqb k name then Some v else None
      end
  end.

(** Canonical array index: a decimal numeral without leading zero. *)
Definition digit (c : ascii) : option nat :=
  let n := nat_of_ascii c in
  if ((48 <=? n) && (n <=? 57))%nat then Some (n - 48)%nat else None.

Fixpoint digits (acc : nat) (s : string) : option nat :=
  match s with
  | EmptyString => Some acc
  | String c rest =>
      match digit c with
      | Some d => digits (10 * acc + d) rest
      | None => None
      end
  end.

Definition arrayIndex (name : string) : option nat :=
  match name with
  | EmptyString => None
  | String c rest =>
      if Ascii.eqb c "0"
      then (if String.eqb rest EmptyString then Some 0%nat else None)
      else digits 0 name
  end.

(** Errors.  The three application classes carry a status and a code; every
    other thrown [Error] (TypeError, SyntaxError, what [fetch] rejects
    with) is [NativeError name message]. *)
Inductive exn : Type :=
| WebhookError (message : string) (statusCode : Z) (errorCode : string)
| GitHubApiError (message : string) (statusCode : Z) (errorCode : string)
| ConfigurationError (message : string) (statusCode : Z) (errorCode : string)
| NativeError (name : string) (message : string).

Definition errorName (e : exn) : string :=
  match e with
  | WebhookError _ _ _ => "WebhookError"
  | GitHubApiError _ _ _ => "GitHubApiError"
  | ConfigurationError _ _ _ => "ConfigurationError"
  | NativeError name _ => name
  end.

Definition errorMessage (e : exn) : string :=
  match e with
  | WebhookError m _ _ | GitHubApiError m _ _ | ConfigurationError m _ _ => m
  | NativeError _ m => m
  end.

(** The outcome of evaluating code that may throw. *)
Inductive completion (A : Type) : Type :=
| Normal (a : A)
| Throw (e : exn).
Arguments Normal {A} a.
Arguments Throw {A} e.

Definition andThen {A B : Type} (c : completion A) (k : A -> completion B)
  : completion B :=
  match c with
  | Normal a => k a
  | Throw e => Throw e
  end.

(** Member access [v.name].  Reading a member of [undefined] or [null]
    throws a TypeError.  Inherited members (those of [Object.prototype] and
    the like) are left out: none of the names this program reads is one. *)
Definition get (v : value) (name : string) : completion value :=
  match v with
  | Undefined | Null =>
      Throw (NativeError "TypeError" "Cannot read properties of undefined or null")
  | Bool _ | Num _ => Normal Undefined
  | Str s =>
      if String.eqb name "length" then Normal (Num (ofZ (Z.of_nat (String.length s))))
      else match arrayIndex name with
           | Some i => match String.get i s with
                       | Some c => Normal (Str (String c EmptyString))
                       | None => Normal Undefined
                       end
           | None => Normal Undefined
           end
  | Arr items =>
      if String.eqb name "length" then Normal (Num (ofZ (Z.of_nat (List.length items))))
      else match arrayIndex name with
           | Some i => match nth_error items i with
                       | Some x => Normal x
                       | None => Normal Undefined
                       end
           | None => Normal Undefined
           end
  | Obj members =>
      match member members name with
      | Some x => Normal x
      | None => Normal Undefined
      end
  end.

(** SameValueZero restricted to a string on the right, as
    [array.includes(x)] uses it on an array of string literals. *)
Definition sameString (v : value) (s : string) : bool :=
  match v with
  | Str t => String.eqb t s
  | _ => false
  end.

End JS.

Import JS.

Declare Scope js_scope.
Delimit Scope js_scope with js.
Notation "x <- c ;; k" := (andThen c (fun x => k))
  (at level 61, c at next level, right associativity) : js_scope.

(** ** Effects of one request

    A request leaves a trace: what it writes with [console.error] (kept by
    its label) and the requests it sends with [fetch]. *)

Record fetchRequest : Type := {
  url : string;
  method : string;
  headers : list (string * string);
  body : string          (* the [body] member of the JSON document sent *)
}.

Inductive event : Type :=
| ConsoleError (label : string)
| Fetch (request : fetchRequest).

(** What the awaited body of a response gives. *)
Inductive bodyRead : Type :=
| BodyText (text : string)
| BodyFails (name message : string).

Record fetchResponse : Type := {
  status : Z;
  statusText : string;
  responseBody : bodyRead
}.

(** [fetch] resolves with a response or rejects with an error of the
    platform (TypeError, AbortError, ...). *)
Inductive fetchOutcome : Type :=
| Resolves (response : fetchResponse)
| Rejects (name message : string).

(** [JSON.parse] returns a value or throws a SyntaxError. *)
Inductive parsed : Type :=
| Parsed (v : value)
| SyntaxError (message : string).

(** [response.ok] *)
Definition ok (r : fetchResponse) : bool :=
  ((200 <=? status r) && (status r <=? 299))%Z.

(** The platform under the handler. *)
Record runtime : Type := {
  env_get : string -> option string;            (* Deno.env.get *)
  JSON_parse : string -> parsed;                (* JSON.parse *)
  fetch : fetchRequest -> fetchOutcome;         (* fetch, awaited *)
  now : string;                                 (* new Date().toISOString() *)
  Number_toString : number -> string            (* a number inside a template *)
}.

(** Computations with a trace: the events in the order they happen, then the
    completion. *)
Definition M (A : Type) : Type := (list event * completion A)%type.

Definition ret {A : Type} (a : A) : M A := ([], Normal a).
Definition throw {A : Type} (e : exn) : M A := ([], Throw e).
Definition lift {A : Type} (c : completion A) : M A := ([], c).
Definition emit (e : event) : M unit := ([e], Normal tt).

Definition bind {A B : Type} (m : M A) (k : A -> M B) : M B :=
  match m with
  | (t, Normal a) => let (t', c) := k a in ((t ++ t')%list, c)
  | (t, Throw e) => (t, Throw e)
  end.

(** [try { m } catch (e) { handler e }] *)
Definition try_catch {A : Type} (m : M A) (handler : exn -> M A) : M A :=
  match m with
  | (t, Throw e) => let (t', c) := handler e in ((t ++ t')%list, c)
  | done => done
  end.

Declare Scope trace_scope.
Delimit Scope trace_scope with trace.
Notation "x <- m ;; k" := (bind m (fun x => k))
  (at level 61, m at next level, right associativity) : trace_scope.
Notation "m ;; k" := (bind m (fun _ => k))
  (at level 61, right associativity) : trace_scope.

Definition console_error (label : string) : M unit := emit (ConsoleError label).

Definition await_fetch (rt : runtime) (request : fetchRequest) : M fetchResponse :=
  (emit (Fetch request) ;;
   match fetch rt request with
   | Resolves response => ret response
   | Rejects name message => throw (NativeError name message)
   end)%trace.

Definition await_text (response : fetchResponse) : M string :=
  match responseBody response with
  | BodyText text => ret text
  | BodyFails name message => throw (NativeError name message)
  end.

Definition parse (rt : runtime) (text : string) : M value :=
  match JSON_parse rt text with
  | Parsed v => ret v
  | SyntaxError message => throw (NativeError "SyntaxError" message)
  end.

(** Interpolation of a value in a template literal, for the values the
    handler interpolates (strings and numbers; the other cases follow
    ToString, an array or object member being printed recursively). *)
Fixpoint ToString (rt : runtime) (v : value) : string :=
  match v with
  | Undefined => "undefined"
  | Null => "null"
  | Bool true => "true"
  | Bool false => "false"
  | Num n => Number_toString rt n
  | Str s => s
  | Arr items =>
      join "," (map (fun x => match x with
                              | Undefined | Null => EmptyString
                              | _ => ToString rt x
                              end) items)
  | Obj _ => "[object Object]"
  end.

(** ** TypeScript interfaces *)

Record GitHubUser : Type := {
  login : string;
  type : string;
  id : number
}.

(** The HTTP request as the handler reads it: [req.method],
    [req.headers.get('content-type')] and [await req.text()]. *)
Record Request : Type := {
  req_method : string;
  req_content_type : option string;
  req_text : string
}.

(** The JSON document of a response, before [JSON.stringify]. *)
Inductive responseBodyJson : Type :=
| ErrorResponse (error message timestamp : string)
| SuccessResponse (message timestamp : string).

Record Response : Type := {
  resp_status : Z;
  resp_headers : list (string * string);
  resp_body : responseBodyJson
}.

(** ** Error handling framework *)

(** The statuses of a response that has no body: 101, 103, 204, 205, 304. *)
Definition nullBodyStatus (status : Z) : bool :=
  ((status =? 101) || (status =? 103) || (status =? 204) || (status =? 205)
   || (status =? 304))%Z.

(** [new Response(body, { status, headers })] for a body that is not null,
    as the Fetch standard initialises a response: a status outside 200..599
    is a RangeError, and a null body status with a body is a TypeError. *)
Definition newResponse (body : responseBodyJson) (status : Z)
    (headers : list (string * string)) : completion Response :=
  if negb ((200 <=? status) && (status <=? 599))%Z then
    Throw (NativeError "RangeError" "The status provided is outside the range [200, 599]")
  else if nullBodyStatus status then
    Throw (NativeError "TypeError" "Response with null body status cannot have body")
  else
    Normal {| resp_status := status;
              resp_headers := headers;
              resp_body := body |}.

Definition createErrorResponse (rt : runtime) (error message : string) (statusCode : Z)
  : completion Response :=
  let errorResponse := ErrorResponse error message (now rt) in
  newResponse errorResponse statusCode [("Content-Type", "application/json")].

Definition createSuccessResponse (rt : runtime) (message : string)
  : completion Response :=
  newResponse (SuccessResponse message (now rt)) 200
    [("Content-Type", "application/json")].

(** ** Bot detection *)

Module BotDetector.

Definition isBot (user : GitHubUser) : bool :=
  if String.eqb (type user) "Bot" then true
  else if endsWith (login user) "[bot]" then true
  else false.

End BotDetector.

(** ** GitHub API client *)

Module GitHubApiClient.

Record t : Type := { token : string }.

(** [new GitHubApiClient()]: [!token] holds for an absent and for an empty
    variable. *)
Definition constructor (rt : runtime) : M t :=
  match env_get rt "GITHUB_TOKEN" with
  | Some token =>
      if String.eqb token EmptyString
      then throw (ConfigurationError
                    "GitHub token not found in environment variables"
                    500 "MISSING_GITHUB_TOKEN")
      else ret {| token := token |}
  | None =>
      throw (ConfigurationError
               "GitHub token not found in environment variables"
               500 "MISSING_GITHUB_TOKEN")
  end.

(** The branch of [postComment] taken when [response.ok] is false, after
    the body was read as [errorText]: which error is thrown. *)
Definition apiError (rt : runtime) (repo issueNumber : value)
    (response : fetchResponse) (errorText : string) : exn :=
  if (status response =? 401)%Z then
    GitHubApiError
      "GitHub API authentication failed. Please check your GITHUB_TOKEN."
      401 "GITHUB_AUTH_FAILED"
  else if (status response =? 403)%Z then
    if includes errorText "rate limit" then
      GitHubApiError
        "GitHub API rate limit exceeded. Please try again later."
        429 "GITHUB_RATE_LIMIT"
    else
      GitHubApiError
        "GitHub API access forbidden. Please check repository permissions."
        403 "GITHUB_FORBIDDEN"
  else if (status response =? 404)%Z then
    GitHubApiError
      ("Repository or pull request not found: " ++ ToString rt repo ++ "#"
         ++ ToString rt issueNumber)
      404 "GITHUB_NOT_FOUND"
  else if (status response >=? 500)%Z then
    GitHubApiError
      "GitHub API server error. Please try again later."
      503 "GITHUB_SERVER_ERROR"
  else
    GitHubApiError
      ("GitHub API request failed: " ++ Number_toString rt (ofZ (status response))
         ++ " " ++ statusText response ++ " - " ++ errorText)
      (status response) "GITHUB_API_REQUEST_FAILED".

(** The arguments of the one [fetch] call of [postComment]. *)
Definition commentRequest (rt : runtime) (self : t) (repo issueNumber : value)
    (body : string) : fetchRequest :=
  let url := "https://api.github.com/repos/" ++ ToString rt repo ++ "/issues/"
               ++ ToString rt issueNumber ++ "/comments" in
  {| url := url;
     method := "POST";
     headers := [("Authorization", "Bearer " ++ token self);
                 ("Accept", "application/vnd.github.v3+json");
                 ("Content-Type", "application/json");
                 ("User-Agent", "PR-Bot-Reviewer/1.0")];
     body := body |}.

Definition postComment (rt : runtime) (self : t) (repo issueNumber : value)
    (body : string) : M unit :=
  try_catch
    (response <- await_fetch rt (commentRequest rt self repo issueNumber body) ;;
     if negb (ok response) then
       errorText <- await_text response ;;
       console_error "GitHub API Error Details:" ;;
       throw (apiError rt repo issueNumber response errorText)
     else ret tt)%trace
    (fun error =>
       match error with
       | GitHubApiError _ _ _ => throw error
       | _ =>
           (console_error "GitHub API Network Error:" ;;
            if String.eqb (errorName error) "AbortError"
               || includes (errorMessage error) "timeout"
            then throw (GitHubApiError
                          "GitHub API request timed out. Please try again later."
                          503 "GITHUB_TIMEOUT")
            else throw (GitHubApiError
                          ("Network error while contacting GitHub API: "
                             ++ errorMessage error)
                          503 "GITHUB_NETWORK_ERROR"))%trace
       end).

End GitHubApiClient.

(** ** Comment service *)

Module CommentService.

Record t : Type := { githubApiClient : GitHubApiClient.t }.

Definition constructor (githubApiClient : GitHubApiClient.t) : t :=
  {| githubApiClient := githubApiClient |}.

(** The line feed that separates the triggers. *)
Definition LF : string := String (ascii_of_nat 10) EmptyString.

Definition reviewTriggers : list string :=
  [ "@coderabbitai review";
    "/gemini review";
    "@cubic-dev-ai review";
    "@greptile review" ].

Definition generateReviewComment (self : t) : string :=
  join LF reviewTriggers.

Definition postReviewComment (rt : runtime) (self : t) (repo prNumber : value)
  : M unit :=
  let commentBody := generateReviewComment self in
  GitHubApiClient.postComment rt (githubApiClient self) repo prNumber commentBody.

End CommentService.

(** ** Payload validation *)

Definition validateWebhookPayload (payload : value) : completion unit :=
  (if negb (truthy payload) || negb (String.eqb (typeof payload) "object") then
     Throw (WebhookError "Webhook payload must be a valid JSON object"
              400 "INVALID_PAYLOAD_TYPE")
   else
   action <- get payload "action" ;;
   if negb (truthy action) || negb (String.eqb (typeof action) "string") then
     Throw (WebhookError "Webhook payload missing required field: action"
              400 "MISSING_ACTION")
   else
   pull_request <- get payload "pull_request" ;;
   if negb (truthy pull_request) || negb (String.eqb (typeof pull_request) "object") then
     Throw (WebhookError "Webhook payload missing required field: pull_request"
              400 "MISSING_PULL_REQUEST")
   else
   repository <- get payload "repository" ;;
   if negb (truthy repository) || negb (String.eqb (typeof repository) "object") then
     Throw (WebhookError "Webhook payload missing required field: repository"
              400 "MISSING_REPOSITORY")
   else
   number <- get payload "number" ;;
   if negb (String.eqb (typeof number) "number") then
     Throw (WebhookError "Webhook payload missing required field: number"
              400 "MISSING_NUMBER")
   else
   (* the pull_request test is repeated in the source *)
   if negb (truthy pull_request) || negb (String.eqb (typeof pull_request) "object") then
     Throw (WebhookError "Webhook payload missing required field: pull_request"
              400 "MISSING_PULL_REQUEST")
   else
   sender <- get payload "sender" ;;
   if negb (truthy sender) || negb (String.eqb (typeof sender) "object") then
     Throw (WebhookError "Webhook payload missing required field: sender"
              400 "MISSING_SENDER")
   else
   sender_login <- get sender "login" ;;
   if negb (truthy sender_login) || negb (String.eqb (typeof sender_login) "string") then
     Throw (WebhookError "Sender missing required field: login"
              400 "MISSING_SENDER_LOGIN")
   else
   sender_type <- get sender "type" ;;
   if negb (truthy sender_type) || negb (String.eqb (typeof sender_type) "string") then
     Throw (WebhookError "Sender missing required field: type"
              400 "MISSING_SENDER_TYPE")
   else
   sender_id <- get sender "id" ;;
   if negb (String.eqb (typeof sender_id) "number") then
     Throw (WebhookError "Sender missing required field: id"
              400 "MISSING_SENDER_ID")
   else
   full_name <- get repository "full_name" ;;
   if negb (truthy full_name) || negb (String.eqb (typeof full_name) "string") then
     Throw (WebhookError "Repository missing required field: full_name"
              400 "MISSING_REPO_FULL_NAME")
   else Normal tt)%js.

(** ** The HTTP entry point *)

Definition ALLOWED_ACTIONS : list string := ["opened"].

(** The test on the Content-Type header: [contentType] is what
    [req.headers.get('content-type')] returns, [None] for [null]. *)
Definition contentTypeAccepted (contentType : option string) : bool :=
  match contentType with
  | None => false
  | Some v => negb (String.eqb v EmptyString) && includes v "application/json"
  end.

Definition isKnownError (e : exn) : bool :=
  match e with
  | WebhookError _ _ _ | GitHubApiError _ _ _ | ConfigurationError _ _ _ => true
  | NativeError _ _ => false
  end.

Definition knownStatus (e : exn) : Z :=
  match e with
  | WebhookError _ s _ | GitHubApiError _ s _ | ConfigurationError _ s _ => s
  | NativeError _ _ => 500
  end.

Definition knownCode (e : exn) : string :=
  match e with
  | WebhookError _ _ c | GitHubApiError _ _ c | ConfigurationError _ _ c => c
  | NativeError _ _ => "INTERNAL_ERROR"
  end.

(** The entry point, [export default async function (req)], in the three
    parts its body falls into, and then whole. *)

(** Lines 501-532: the body is read and parsed. *)
Definition readPayload (rt : runtime) (req : Request) : M value :=
  try_catch
    (let body := req_text req in
     if String.eqb (trim body) EmptyString
     then throw (WebhookError "Request body is empty" 400 "EMPTY_PAYLOAD")
     else parse rt body)
    (fun parseError =>
       console_error "Payload parsing error:" ;;
       match parseError with
       | WebhookError _ _ _ => throw parseError
       | _ => throw (WebhookError
                       ("Failed to parse webhook payload as JSON: "
                          ++ errorMessage parseError)
                       400 "INVALID_JSON")
       end)%trace.

(** Lines 547-594: what is done with a validated payload. *)
Definition processPayload (rt : runtime) (payload : value) : M Response :=
  (action <- lift (get payload "action") ;;
   if negb (existsb (sameString action) ALLOWED_ACTIONS) then
     lift (createSuccessResponse rt
            ("Action '" ++ ToString rt action
               ++ "' is not in the allow-list. No review comment posted."))
   else
     commentService <-
       try_catch
         (githubApiClient <- GitHubApiClient.constructor rt ;;
          ret (CommentService.constructor githubApiClient))
         (fun configError =>
            console_error "Configuration error:" ;;
            throw configError) ;;
     try_catch
       (repository <- lift (get payload "repository") ;;
        full_name <- lift (get repository "full_name") ;;
        number <- lift (get payload "number") ;;
        CommentService.postReviewComment rt commentService full_name number)
       (fun commentError =>
          repository <- lift (get payload "repository") ;;
          _ <- lift (get repository "full_name") ;;
          _ <- lift (get payload "number") ;;
          console_error "Comment posting error:" ;;
          throw commentError) ;;
     number <- lift (get payload "number") ;;
     sender <- lift (get payload "sender") ;;
     sender_login <- lift (get sender "login") ;;
     lift (createSuccessResponse rt
            ("Review comment posted successfully for PR #"
               ++ ToString rt number ++ " by " ++ ToString rt sender_login)))%trace.

(** Lines 596-622: the outer [catch]. *)
Definition respondToError (rt : runtime) (error : exn) : M Response :=
  (console_error "Webhook handler error:" ;;
   if isKnownError error then
     lift (createErrorResponse rt (knownCode error) (errorMessage error)
            (knownStatus error))
   else
     lift (createErrorResponse rt "INTERNAL_ERROR"
            "An unexpected error occurred while processing the webhook" 500))%trace.

Definition handler (rt : runtime) (req : Request) : M Response :=
  try_catch
    (if negb (String.eqb (req_method req) "POST") then
       lift (createErrorResponse rt "METHOD_NOT_ALLOWED"
              "Only POST requests are supported" 405)
     else if negb (contentTypeAccepted (req_content_type req)) then
       lift (createErrorResponse rt "INVALID_CONTENT_TYPE"
              "Content-Type must be application/json" 400)
     else
       payload <- readPayload rt req ;;
       try_catch
         (lift (validateWebhookPayload payload))
         (fun validationError =>
            console_error "Payload validation error:" ;;
            throw validationError) ;;
       processPayload rt payload)%trace
    (respondToError rt).

(** ** Vocabulary of the design documents *)

(** [s] ends with [suffix]. *)
Definition hasSuffix (s suffix : string) : Prop :=
  exists before, s = before ++ suffix.

(** [needle] occurs somewhere in [s]. *)
Definition occursIn (needle s : string) : Prop :=
  exists before after, s = before ++ needle ++ after.

(** A bot user, as the glossary defines one. *)
Definition BotUser (user : GitHubUser) : Prop :=
  type user = "Bot" \/ hasSuffix (login user) "[bot]".

(** A value that is an object and not [null]. *)
Definition nonNullObject (v : value) : bool :=
  truthy v && String.eqb (typeof v) "object".

Definition nonEmptyString (v : value) : bool :=
  truthy v && String.eqb (typeof v) "string".

Definition isNumber (v : value) : bool :=
  String.eqb (typeof v) "number".

(** A number that is finite and has no fractional part. *)
Definition isFiniteInteger (n : number) : bool :=
  match n with
  | Finite q => (Z.modulo (Qnum q) (Zpos (Qden q)) =? 0)%Z
  | _ => false
  end.

(** Member access that yields [undefined] where there is nothing to read. *)
Definition field (v : value) (name : string) : value :=
  match get v name with
  | Normal x => x
  | Throw _ => Undefined
  end.

(** The ten checks of the validator's contract, in the order the contract
    lists them, each with its error code and message. *)
Inductive check : Type :=
| PayloadType | Action | PullRequest | Repository | Number
| Sender | SenderLogin | SenderType | SenderId | RepoFullName.

Definition validationOrder : list check :=
  [PayloadType; Action; PullRequest; Repository; Number;
   Sender; SenderLogin; SenderType; SenderId; RepoFullName].

(** A check on a member counts only where there is an object to read the
    member from: a payload without [sender] fails the check on [sender], not
    the three on the members of [sender] as well. *)
Definition within (parent : value) (test : bool) : bool :=
  negb (nonNullObject parent) || test.

Definition isString (v : value) : bool := String.eqb (typeof v) "string".

(** The checks as section 4.1 words them.  Check 2 reads "action must exist
    and be a string"; checks 7, 8 and 10 ask for a non-empty string. *)
Definition statedPasses (c : check) (payload : value) : bool :=
  match c with
  | PayloadType => nonNullObject payload
  | Action => within payload (isString (field payload "action"))
  | PullRequest => within payload (nonNullObject (field payload "pull_request"))
  | Repository => within payload (nonNullObject (field payload "repository"))
  | Number => within payload (isNumber (field payload "number"))
  | Sender => within payload (nonNullObject (field payload "sender"))
  | SenderLogin =>
      within (field payload "sender")
        (nonEmptyString (field (field payload "sender") "login"))
  | SenderType =>
      within (field payload "sender")
        (nonEmptyString (field (field payload "sender") "type"))
  | SenderId =>
      within (field payload "sender") (isNumber (field (field payload "sender") "id"))
  | RepoFullName =>
      within (field payload "repository")
        (nonEmptyString (field (field payload "repository") "full_name"))
  end.

(** The checks as the validator makes them: those of section 4.1, except
    that the action has to be a non-empty string. *)
Definition passes (c : check) (payload : value) : bool :=
  match c with
  | Action => within payload (nonEmptyString (field payload "action"))
  | _ => statedPasses c payload
  end.

Definition codeOf (c : check) : string :=
  match c with
  | PayloadType => "INVALID_PAYLOAD_TYPE"
  | Action => "MISSING_ACTION"
  | PullRequest => "MISSING_PULL_REQUEST"
  | Repository => "MISSING_REPOSITORY"
  | Number => "MISSING_NUMBER"
  | Sender => "MISSING_SENDER"
  | SenderLogin => "MISSING_SENDER_LOGIN"
  | SenderType => "MISSING_SENDER_TYPE"
  | SenderId => "MISSING_SENDER_ID"
  | RepoFullName => "MISSING_REPO_FULL_NAME"
  end.

Definition messageOf (c : check) : string :=
  match c with
  | PayloadType => "Webhook payload must be a valid JSON object"
  | Action => "Webhook payload missing required field: action"
  | PullRequest => "Webhook payload missing required field: pull_request"
  | Repository => "Webhook payload missing required field: repository"
  | Number => "Webhook payload missing required field: number"
  | Sender => "Webhook payload missing required field: sender"
  | SenderLogin => "Sender missing required field: login"
  | SenderType => "Sender missing required field: type"
  | SenderId => "Sender missing required field: id"
  | RepoFullName => "Repository missing required field: full_name"
  end.

(** The rejection a failed check stands for: its code with HTTP 400. *)
Definition rejection (c : check) : exn :=
  WebhookError (messageOf c) 400 (codeOf c).

(** The first check of [order] that [payload] fails. *)
Definition firstFailure (order : list check) (payload : value) : option check :=
  find (fun c => negb (passes c payload)) order.

(** Validation by the contract: run the checks in order, stop at the first
    that fails. *)
Definition validateInOrder (payload : value) : completion unit :=
  match firstFailure validationOrder payload with
  | Some c => Throw (rejection c)
  | None => Normal tt
  end.

(** The code of the error a computation ends with, if it ends with one. *)
Definition thrownCode {A : Type} (c : completion A) : option string :=
  match c with
  | Throw e => if isKnownError e then Some (knownCode e) else None
  | Normal _ => None
  end.

(** The sender of a payload as a [GitHubUser], when it has that shape. *)
Definition senderOf (payload : value) : option GitHubUser :=
  match field (field payload "sender") "login",
        field (field payload "sender") "type",
        field (field payload "sender") "id" with
  | Str l, Str t, Num n => Some {| login := l; type := t; id := n |}
  | _, _, _ => None
  end.

(** The Actor invariant of the data model. *)
Definition ActorInvariant (payload : value) : Prop :=
  nonEmptyString (field (field payload "sender") "login") = true
  /\ nonEmptyString (field (field payload "sender") "type") = true
  /\ exists n, field (field payload "sender") "id" = Num n
               /\ isFiniteInteger n = true.

(** The requests a trace sent out. *)
Definition outboundCalls (trace : list event) : list fetchRequest :=
  flat_map (fun e => match e with Fetch r => [r] | ConsoleError _ => [] end) trace.

(** A request that gets as far as validation and passes it: a POST with an
    accepted content type whose body is not blank and parses to a payload
    the validator accepts. *)
Definition carriesValidPayload (rt : runtime) (req : Request) (payload : value) : Prop :=
  req_method req = "POST"
  /\ contentTypeAccepted (req_content_type req) = true
  /\ trim (req_text req) <> EmptyString
  /\ JSON_parse rt (req_text req) = Parsed payload
  /\ validateWebhookPayload payload = Normal tt.

(** The error code of a response, when it is an error response. *)
Definition responseError (r : Response) : option string :=
  match resp_body r with
  | ErrorResponse error _ _ => Some error
  | SuccessResponse _ _ => None
  end.

(** ** Sample requests

    Concrete payloads, a request and a platform to run the handler on. *)

Definition sampleUser (login type : string) (id : number) : value :=
  Obj [("login", Str login); ("type", Str type); ("id", Num id)].

Definition samplePayload (action sender : value) : value :=
  Obj [("action", action);
       ("number", Num (ofZ 12));
       ("pull_request", Obj [("user", sender)]);
       ("repository", Obj [("full_name", Str "octo/demo")]);
       ("sender", sender)].

Definition alice : value := sampleUser "alice" "User" (ofZ 7).
Definition dependabot : value := sampleUser "dependabot[bot]" "Bot" (ofZ 49699333).

(** A payload that lacks its sender, one whose sender lacks a login, and one
    that lacks both action and sender. *)
Definition payloadWithoutSender : value :=
  Obj [("action", Str "opened");
       ("number", Num (ofZ 12));
       ("pull_request", Obj []);
       ("repository", Obj [("full_name", Str "octo/demo")])].

Definition payloadWithoutLogin : value :=
  samplePayload (Str "opened") (Obj [("type", Str "User"); ("id", Num (ofZ 7))]).

Definition payloadWithoutActionAndSender : value :=
  Obj [("number", Num (ofZ 12));
       ("pull_request", Obj []);
       ("repository", Obj [("full_name", Str "octo/demo")])].

(** A payload whose action is the empty string, and one whose sender has
    the id 3/2. *)
Definition payloadWithEmptyAction : value := samplePayload (Str "") alice.

(** A payload whose action is the empty string and that has no sender. *)
Definition payloadWithEmptyActionWithoutSender : value :=
  Obj [("action", Str "");
       ("number", Num (ofZ 12));
       ("pull_request", Obj []);
       ("repository", Obj [("full_name", Str "octo/demo")])].

(** A payload without a repository, and a payload that is no object. *)
Definition payloadWithoutRepository : value :=
  Obj [("action", Str "opened");
       ("number", Num (ofZ 12));
       ("pull_request", Obj []);
       ("sender", Obj [("login", Str "alice"); ("type", Str "User");
                       ("id", Num (Finite (7 # 1)))])].

Definition payloadThatIsText : value := Str "opened".

Definition payloadWithFractionalId : value :=
  samplePayload (Str "opened") (sampleUser "alice" "User" (Finite (3 # 2))).

(** Prints the integral part of a finite number in decimal. *)
Definition sampleNumberToString (n : number) : string :=
  match n with
  | Finite q => NilZero.string_of_int (Z.to_int (Qnum q / Zpos (Qden q)))
  | PosInfinity => "Infinity"
  | NegInfinity => "-Infinity"
  | NaN => "NaN"
  end.

Definition sampleRuntime (token : option string) (payload : value)
    (downstream : fetchOutcome) : runtime :=
  {| env_get := fun name => if String.eqb name "GITHUB_TOKEN" then token else None;
     JSON_parse := fun _ => Parsed payload;
     fetch := fun _ => downstream;
     now := "2024-01-01T12:00:00.000Z";
     Number_toString := sampleNumberToString |}.

(** A pull request opened by a person. *)
Definition aliceUser : GitHubUser :=
  {| login := "alice"; type := "User"; id := ofZ 7 |}.

Definition openedByAlice : value := samplePayload (Str "opened") alice.

Definition requestWith (contentType : option string) : Request :=
  {| req_method := "POST";
     req_content_type := contentType;
     req_text := "{ }" |}.

Definition sampleRequest : Request :=
  {| req_method := "POST";
     req_content_type := Some "application/json";
     req_text := "{ }" |}.

Definition created : fetchOutcome :=
  Resolves {| status := 201; statusText := "Created"; responseBody := BodyText "{}" |}.

Definition downstream (status : Z) (text : string) : fetchResponse :=
  {| status := status; statusText := "-"; responseBody := BodyText text |}.

(** ** Vocabulary for the whole request path *)

(** Every code unit of [s] is white space. *)
Fixpoint allWhiteSpace (s : string) : bool :=
  match s with
  | EmptyString => true
  | String c rest => isWhiteSpace c && allWhiteSpace rest
  end.

(** The white space of [String.prototype.trim] among the code units below
    256, by code: TAB, LF, VT, FF, CR, SPACE and NO-BREAK SPACE. *)
Definition whiteSpaceCodes : list nat := [9; 10; 11; 12; 13; 32; 160]%nat.

(** A text that is empty or made of white space only. *)
Definition blank (s : string) : bool :=
  forallb (fun c => existsb (Nat.eqb (nat_of_ascii c)) whiteSpaceCodes)
    (list_ascii_of_string s).

(** A status of the 2xx class, the range [response.ok] tests. *)
Definition is2xx (code : Z) : bool := ((200 <=? code) && (code <=? 299))%Z.

(** A status that [new Response] accepts together with a body. *)
Definition carriesBody (status : Z) : bool :=
  ((200 <=? status) && (status <=? 599))%Z && negb (nullBodyStatus status).

(** The error envelope and the success envelope of the data model, as the
    responses that carry them. *)
Definition errorEnvelope (status : Z) (code message timestamp : string) : Response :=
  {| resp_status := status;
     resp_headers := [("Content-Type", "application/json")];
     resp_body := ErrorResponse code message timestamp |}.

Definition successEnvelope (message timestamp : string) : Response :=
  {| resp_status := 200;
     resp_headers := [("Content-Type", "application/json")];
     resp_body := SuccessResponse message timestamp |}.

(** A computation that ends with a thrown error. *)
Definition rejects {A : Type} (m : M A) : Prop :=
  exists e, snd m = Throw e.

(** The two envelopes: success goes with status 200, an error with a status
    outside the 2xx class; both are stamped with the clock and sent as JSON. *)
Definition wellFormedResponse (rt : runtime) (r : Response) : Prop :=
  resp_headers r = [("Content-Type", "application/json")]
  /\ match resp_body r with
     | SuccessResponse _ timestamp =>
         resp_status r = 200%Z /\ timestamp = now rt
     | ErrorResponse _ _ timestamp =>
         is2xx (resp_status r) = false /\ timestamp = now rt
     end.

(** The codes [postComment] can fail with. *)
Definition apiErrorCodes : list string :=
  [ "GITHUB_AUTH_FAILED"; "GITHUB_RATE_LIMIT"; "GITHUB_FORBIDDEN";
    "GITHUB_NOT_FOUND"; "GITHUB_SERVER_ERROR"; "GITHUB_API_REQUEST_FAILED";
    "GITHUB_TIMEOUT"; "GITHUB_NETWORK_ERROR" ].

(** The request a payload's comment is posted with. *)
Definition requestFor (rt : runtime) (token : string) (payload : value) : fetchRequest :=
  GitHubApiClient.commentRequest rt {| GitHubApiClient.token := token |}
    (field (field payload "repository") "full_name")
    (field payload "number")
    (CommentService.generateReviewComment
       (CommentService.constructor {| GitHubApiClient.token := token |})).

(** Lines 312-324: the error the [catch] of [postComment] throws when what
    it caught is an error of the platform. *)
Definition networkError (name message : string) : exn :=
  if String.eqb name "AbortError" || includes message "timeout"
  then GitHubApiError "GitHub API request timed out. Please try again later."
         503 "GITHUB_TIMEOUT"
  else GitHubApiError ("Network error while contacting GitHub API: " ++ message)
         503 "GITHUB_NETWORK_ERROR".

(** What the outer [catch] returns for an error of a known class. *)
Definition answerTo (rt : runtime) (e : exn) : completion Response :=
  createErrorResponse rt (knownCode e) (errorMessage e) (knownStatus e).

(** The log entries of the four places that log before rethrowing, each
    followed by the entry of the outer [catch]. *)
Definition parsingLogs : list event :=
  [ConsoleError "Payload parsing error:"; ConsoleError "Webhook handler error:"].

Definition validationLogs : list event :=
  [ConsoleError "Payload validation error:"; ConsoleError "Webhook handler error:"].

Definition configurationLogs : list event :=
  [ConsoleError "Configuration error:"; ConsoleError "Webhook handler error:"].

Definition postingLogs : list event :=
  [ConsoleError "Comment posting error:"; ConsoleError "Webhook handler error:"].

(** The ways through the entry point, one constructor for each: the trace
    a request leaves and how the handler ends. *)
Inductive run (rt : runtime) (req : Request)
  : list event -> completion Response -> Prop :=
| run_method :
    req_method req <> "POST" ->
    run rt req []
      (Normal (errorEnvelope 405 "METHOD_NOT_ALLOWED"
                 "Only POST requests are supported" (now rt)))
| run_content_type :
    req_method req = "POST" ->
    contentTypeAccepted (req_content_type req) = false ->
    run rt req []
      (Normal (errorEnvelope 400 "INVALID_CONTENT_TYPE"
                 "Content-Type must be application/json" (now rt)))
| run_empty :
    req_method req = "POST" ->
    contentTypeAccepted (req_content_type req) = true ->
    blank (req_text req) = true ->
    run rt req parsingLogs
      (Normal (errorEnvelope 400 "EMPTY_PAYLOAD" "Request body is empty" (now rt)))
| run_syntax (parserMessage : string) :
    req_method req = "POST" ->
    contentTypeAccepted (req_content_type req) = true ->
    blank (req_text req) = false ->
    JSON_parse rt (req_text req) = SyntaxError parserMessage ->
    run rt req parsingLogs
      (Normal (errorEnvelope 400 "INVALID_JSON"
                 ("Failed to parse webhook payload as JSON: " ++ parserMessage)
                 (now rt)))
| run_refused (payload : value) (c : check) :
    req_method req = "POST" ->
    contentTypeAccepted (req_content_type req) = true ->
    blank (req_text req) = false ->
    JSON_parse rt (req_text req) = Parsed payload ->
    firstFailure validationOrder payload = Some c ->
    run rt req validationLogs
      (Normal (errorEnvelope 400 (codeOf c) (messageOf c) (now rt)))
| run_ignored (payload : value) (action : string) :
    carriesValidPayload rt req payload ->
    field payload "action" = Str action ->
    action <> "opened" ->
    run rt req []
      (Normal (successEnvelope
                 ("Action '" ++ action
                    ++ "' is not in the allow-list. No review comment posted.")
                 (now rt)))
| run_no_token (payload : value) :
    carriesValidPayload rt req payload ->
    field payload "action" = Str "opened" ->
    env_get rt "GITHUB_TOKEN" = None
    \/ env_get rt "GITHUB_TOKEN" = Some EmptyString ->
    run rt req configurationLogs
      (Normal (errorEnvelope 500 "MISSING_GITHUB_TOKEN"
                 "GitHub token not found in environment variables" (now rt)))
| run_posted (payload : value) (token : string) (response : fetchResponse)
    (n : number) (user : GitHubUser) :
    carriesValidPayload rt req payload ->
    field payload "action" = Str "opened" ->
    env_get rt "GITHUB_TOKEN" = Some token ->
    token <> EmptyString ->
    fetch rt (requestFor rt token payload) = Resolves response ->
    ok response = true ->
    field payload "number" = Num n ->
    senderOf payload = Some user ->
    run rt req [Fetch (requestFor rt token payload)]
      (Normal (successEnvelope
                 ("Review comment posted successfully for PR #"
                    ++ Number_toString rt n ++ " by " ++ login user)
                 (now rt)))
| run_api_error (payload : value) (token : string) (response : fetchResponse)
    (errorText message : string) (mapped : Z) (code : string) :
    carriesValidPayload rt req payload ->
    field payload "action" = Str "opened" ->
    env_get rt "GITHUB_TOKEN" = Some token ->
    token <> EmptyString ->
    fetch rt (requestFor rt token payload) = Resolves response ->
    ok response = false ->
    responseBody response = BodyText errorText ->
    GitHubApiClient.apiError rt (field (field payload "repository") "full_name")
      (field payload "number") response errorText
    = GitHubApiError message mapped code ->
    carriesBody mapped = true ->
    run rt req
      (Fetch (requestFor rt token payload)
         :: ConsoleError "GitHub API Error Details:" :: postingLogs)
      (Normal (errorEnvelope mapped code message (now rt)))
| run_api_error_unanswered (payload : value) (token : string)
    (response : fetchResponse) (errorText message : string) (mapped : Z)
    (code name text : string) :
    carriesValidPayload rt req payload ->
    field payload "action" = Str "opened" ->
    env_get rt "GITHUB_TOKEN" = Some token ->
    token <> EmptyString ->
    fetch rt (requestFor rt token payload) = Resolves response ->
    ok response = false ->
    responseBody response = BodyText errorText ->
    GitHubApiClient.apiError rt (field (field payload "repository") "full_name")
      (field payload "number") response errorText
    = GitHubApiError message mapped code ->
    carriesBody mapped = false ->
    run rt req
      (Fetch (requestFor rt token payload)
         :: ConsoleError "GitHub API Error Details:" :: postingLogs)
      (Throw (NativeError name text))
| run_network (payload : value) (token name message text code : string) :
    carriesValidPayload rt req payload ->
    field payload "action" = Str "opened" ->
    env_get rt "GITHUB_TOKEN" = Some token ->
    token <> EmptyString ->
    fetch rt (requestFor rt token payload) = Rejects name message
    \/ (exists response,
          fetch rt (requestFor rt token payload) = Resolves response
          /\ ok response = false
          /\ responseBody response = BodyFails name message) ->
    networkError name message = GitHubApiError text 503 code ->
    run rt req
      (Fetch (requestFor rt token payload)
         :: ConsoleError "GitHub API Network Error:" :: postingLogs)
      (Normal (errorEnvelope 503 code text (now rt))).

(** The codes of the errors answered once the method and the content type
    are accepted. *)
Definition laterCodes : list string :=
  ("EMPTY_PAYLOAD" :: "INVALID_JSON" :: map codeOf validationOrder)
    ++ "MISSING_GITHUB_TOKEN" :: apiErrorCodes.

(** More sample requests and platforms. *)
Definition getRequest : Request :=
  {| req_method := "GET";
     req_content_type := Some "application/json";
     req_text := "{ }" |}.

Definition blankRequest : Request :=
  {| req_method := "POST";
     req_content_type := Some "application/json";
     req_text := String (ascii_of_nat 32) (String (ascii_of_nat 10) EmptyString) |}.

Definition brokenJsonRuntime : runtime :=
  {| env_get := fun _ => Some "ghp_sample";
     JSON_parse := fun _ => SyntaxError "Unexpected token } in JSON";
     fetch := fun _ => created;
     now := "2024-01-01T12:00:00.000Z";
     Number_toString := sampleNumberToString |}.

Definition openedByDependabot : value := samplePayload (Str "opened") dependabot.

Definition aborted : fetchOutcome := Rejects "AbortError" "The operation was aborted".

Definition notModified : fetchOutcome :=
  Resolves {| status := 304; statusText := "Not Modified"; responseBody := BodyText "" |}.

Definition unreadable401 : fetchResponse :=
  {| status := 401; statusText := "Unauthorized";
     responseBody := BodyFails "TypeError" "connection reset" |}.

(** * Properties *)

(** ** Strings *)

Section StringFacts.

Lemma length_app (a b : string) :
  String.length (a ++ b) = (String.length a + String.length b)%nat.
Proof.
  induction a as [|c a IH]; simpl; [reflexivity | now rewrite IH].
Qed.

Lemma app_assoc_s (a b c : string) : (a ++ b) ++ c = a ++ b ++ c.
Proof.
  induction a as [|x a IH]; simpl; [reflexivity | now rewrite IH].
Qed.

Lemma substring_whole (s : string) : substring 0 (String.length s) s = s.
Proof.
  induction s as [|c s IH]; simpl; [reflexivity | now rewrite IH].
Qed.

Lemma substring_skip (p t : string) :
  substring (String.length p) (String.length t) (p ++ t) = t.
Proof.
  induction p as [|c p IH]; simpl; [apply substring_whole | exact IH].
Qed.

Lemma substring_cut (s : string) :
  forall n, (n <= String.length s)%nat ->
  s = substring 0 n s ++ substring n (String.length s - n) s.
Proof.
  induction s as [|c s IH]; intros [|n] Hn; simpl in *; try lia.
  - reflexivity.
  - now rewrite substring_whole.
  - f_equal. apply IH. lia.
Qed.

Lemma endsWith_hasSuffix (s t : string) :
  endsWith s t = true <-> hasSuffix s t.
Proof.
  unfold endsWith, hasSuffix. split.
  - destruct (Nat.ltb_spec (String.length s) (String.length t)) as [|Hle];
      [discriminate|].
    intros H. apply String.eqb_eq in H.
    exists (substring 0 (String.length s - String.length t) s).
    pose proof (substring_cut s (String.length s - String.length t)) as Hcut.
    replace (String.length s - (String.length s - String.length t))%nat
      with (String.length t) in Hcut by lia.
    rewrite H in Hcut. apply Hcut. lia.
  - intros [p ->]. rewrite length_app.
    destruct (Nat.ltb_spec (String.length p + String.length t) (String.length t));
      [lia|].
    replace (String.length p + String.length t - String.length t)%nat
      with (String.length p) by lia.
    rewrite substring_skip. apply String.eqb_refl.
Qed.

Lemma prefix_app (t : string) :
  forall s, prefix t s = true <-> exists after, s = t ++ after.
Proof.
  induction t as [|a t IH]; intros s.
  - split; [intros _; exists s; reflexivity | intros _; now destruct s].
  - destruct s as [|b s]; simpl.
    + split; [discriminate | intros [r Hr]; discriminate].
    + destruct (ascii_dec a b) as [->|Hab].
      * rewrite IH. split; intros [r Hr]; exists r; [now rewrite Hr | now inversion Hr].
      * split; [discriminate | intros [r Hr]; congruence].
Qed.

Lemma includes_occursIn (needle : string) :
  forall s, includes s needle = true <-> occursIn needle s.
Proof.
  unfold occursIn.
  induction s as [|c s IH]; cbn [includes].
  - rewrite orb_false_r, prefix_app. split.
    + intros [r Hr]. exists EmptyString, r. exact Hr.
    + intros [p [r Hr]]. destruct p; [exists r; exact Hr | discriminate].
  - rewrite orb_true_iff, prefix_app, IH. split.
    + intros [[r Hr] | [p [r Hr]]].
      * exists EmptyString, r. exact Hr.
      * exists (String c p), r. simpl. now rewrite Hr.
    + intros [[|x p] [r Hr]].
      * left. exists r. exact Hr.
      * right. exists p, r. now inversion Hr.
Qed.

End StringFacts.

(** ** Bot detection *)

(** C2.  [isBot] answers true exactly for a bot user: one whose type is
    "Bot" or whose login ends with "[bot]".  Both tests are exact on case,
    and a login that only contains "[bot]", such as "[bot]extra", is not a
    bot login. *)
Theorem isBot_iff_BotUser :
  (forall user, BotDetector.isBot user = true <-> BotUser user)
  /\ (forall user, BotDetector.isBot user = false <-> ~ BotUser user)
  /\ (forall i, BotDetector.isBot {| login := "[bot]extra"; type := "User"; id := i |} = false)
  /\ (forall i, BotDetector.isBot {| login := "octocat"; type := "bot"; id := i |} = false)
  /\ (forall i, BotDetector.isBot {| login := "renovate[BOT]"; type := "User"; id := i |} = false)
  /\ (forall i, BotDetector.isBot {| login := "octocat"; type := "Bot"; id := i |} = true)
  /\ (forall i, BotDetector.isBot {| login := "dependabot[bot]"; type := "User"; id := i |} = true).
Proof.
  assert (Hiff : forall user, BotDetector.isBot user = true <-> BotUser user).
  { intros user. unfold BotDetector.isBot, BotUser.
    rewrite <- endsWith_hasSuffix.
    destruct (String.eqb_spec (type user) "Bot") as [Ht|Ht].
    - split; [intros _; left; exact Ht | reflexivity].
    - destruct (endsWith (login user) "[bot]").
      + split; [intros _; right; reflexivity | reflexivity].
      + split; [discriminate | intros [H|H]; [contradiction | discriminate]]. }
  split; [exact Hiff|].
  split; [|repeat split; reflexivity].
  intros user. rewrite <- Hiff.
  destruct (BotDetector.isBot user); split; congruence.
Qed.

(** ** The review comment *)

(** C3.  The comment is the same text on every call: the four triggers in
    their order, each on a line of its own, separated by single line feeds
    (code unit 10), with no line feed at the end; which service object
    produces it makes no difference. *)
Theorem generateReviewComment_is_constant :
  forall self : CommentService.t,
    CommentService.generateReviewComment self
    = "@coderabbitai review"
        ++ String "010"%char
             ("/gemini review"
                ++ String "010"%char
                     ("@cubic-dev-ai review"
                        ++ String "010"%char "@greptile review"))
    /\ String.get 20 (CommentService.generateReviewComment self)
       = Some (ascii_of_nat 10)
    /\ String.get 35 (CommentService.generateReviewComment self)
       = Some (ascii_of_nat 10)
    /\ String.get 56 (CommentService.generateReviewComment self)
       = Some (ascii_of_nat 10)
    /\ String.get 72 (CommentService.generateReviewComment self)
       = Some "w"%char
    /\ String.length (CommentService.generateReviewComment self) = 73%nat
    /\ forall other : CommentService.t,
         CommentService.generateReviewComment other
         = CommentService.generateReviewComment self.
Proof.
  intros self.
  repeat (split; [reflexivity|]).
  intros other. reflexivity.
Qed.

(** ** Payload validation *)

Section Validation.

Lemma get_field (v : value) (name : string) :
  nonNullObject v = true -> get v name = Normal (field v name).
Proof.
  unfold field.
  unfold nonNullObject.
  destruct v as [| | b | n | s | items | members];
    simpl; rewrite ?andb_false_r; try discriminate; intros _.
  - destruct (String.eqb name "length"); [reflexivity|].
    destruct (arrayIndex name) as [i|]; [|reflexivity].
    destruct (nth_error items i); reflexivity.
  - destruct (member members name); reflexivity.
Qed.

Lemma either_not (a b : bool) : negb a || negb b = negb (a && b).
Proof. now destruct a, b. Qed.

Lemma within_object (parent : value) (test : bool) :
  nonNullObject parent = true -> within parent test = test.
Proof. intros H. unfold within. now rewrite H. Qed.

Lemma within_nothing (parent : value) (test : bool) :
  nonNullObject parent = false -> within parent test = true.
Proof. intros H. unfold within. now rewrite H. Qed.

(** The validator and the ordered checks agree on every value. *)
Lemma validate_in_order (payload : value) :
  validateWebhookPayload payload = validateInOrder payload.
Proof.
  unfold validateWebhookPayload, validateInOrder, firstFailure, validationOrder.
  cbn [find passes statedPasses]. unfold within. rewrite !either_not.
  fold (nonNullObject payload).
  destruct (nonNullObject payload) eqn:Hp; cbn [negb orb]; [|reflexivity].
  rewrite (get_field payload "action" Hp). cbn [andThen].
  rewrite either_not. fold (nonEmptyString (field payload "action")).
  destruct (nonEmptyString (field payload "action")); cbn [negb]; [|reflexivity].
  rewrite (get_field payload "pull_request" Hp). cbn [andThen].
  rewrite !either_not. fold (nonNullObject (field payload "pull_request")).
  destruct (nonNullObject (field payload "pull_request")); cbn [negb]; [|reflexivity].
  rewrite (get_field payload "repository" Hp). cbn [andThen].
  rewrite either_not. fold (nonNullObject (field payload "repository")).
  destruct (nonNullObject (field payload "repository")) eqn:Hr;
    cbn [negb orb]; [|reflexivity].
  rewrite (get_field payload "number" Hp). cbn [andThen].
  fold (isNumber (field payload "number")).
  destruct (isNumber (field payload "number")); cbn [negb]; [|reflexivity].
  rewrite (get_field payload "sender" Hp). cbn [andThen].
  rewrite either_not. fold (nonNullObject (field payload "sender")).
  destruct (nonNullObject (field payload "sender")) eqn:Hs;
    cbn [negb orb]; [|reflexivity].
  rewrite (get_field _ "login" Hs). cbn [andThen].
  rewrite either_not. fold (nonEmptyString (field (field payload "sender") "login")).
  destruct (nonEmptyString (field (field payload "sender") "login"));
    cbn [negb]; [|reflexivity].
  rewrite (get_field _ "type" Hs). cbn [andThen].
  rewrite either_not. fold (nonEmptyString (field (field payload "sender") "type")).
  destruct (nonEmptyString (field (field payload "sender") "type"));
    cbn [negb]; [|reflexivity].
  rewrite (get_field _ "id" Hs). cbn [andThen].
  fold (isNumber (field (field payload "sender") "id")).
  destruct (isNumber (field (field payload "sender") "id")); cbn [negb]; [|reflexivity].
  rewrite (get_field _ "full_name" Hr). cbn [andThen].
  rewrite either_not.
  fold (nonEmptyString (field (field payload "repository") "full_name")).
  destruct (nonEmptyString (field (field payload "repository") "full_name"));
    reflexivity.
Qed.

Lemma find_first {A : Type} (f : A -> bool) (before after : list A) (x : A) :
  (forall y, In y before -> f y = false) -> f x = true ->
  find f (before ++ x :: after) = Some x.
Proof.
  intros Hb Hx. induction before as [|y before IH]; simpl.
  - now rewrite Hx.
  - rewrite (Hb y) by (left; reflexivity).
    apply IH. intros z Hz. apply Hb. right. exact Hz.
Qed.

(** Whatever the validator throws is the rejection of one of the checks. *)
Lemma validate_throws (payload : value) (e : exn) :
  validateWebhookPayload payload = Throw e ->
  exists c, e = rejection c /\ passes c payload = false.
Proof.
  rewrite validate_in_order. unfold validateInOrder, firstFailure.
  destruct (find _ validationOrder) as [c|] eqn:Hfind; [|discriminate].
  intros H. injection H as <-. exists c. split; [reflexivity|].
  apply find_some in Hfind. destruct Hfind as [_ Hc].
  now apply negb_true_iff in Hc.
Qed.

(** An accepted payload passes every check. *)
Lemma validate_accepts (payload : value) :
  validateWebhookPayload payload = Normal tt ->
  forall c, passes c payload = true.
Proof.
  rewrite validate_in_order. unfold validateInOrder, firstFailure.
  destruct (find _ validationOrder) as [c|] eqn:Hfind; [discriminate|].
  intros _ c.
  pose proof (find_none _ _ Hfind c) as H.
  apply negb_false_iff, H. destruct c; simpl; tauto.
Qed.

(** What is known of the members of an accepted payload. *)
Lemma accepted_members (payload : value) :
  validateWebhookPayload payload = Normal tt ->
  nonNullObject payload = true
  /\ nonEmptyString (field payload "action") = true
  /\ nonNullObject (field payload "repository") = true
  /\ isNumber (field payload "number") = true
  /\ nonNullObject (field payload "sender") = true
  /\ nonEmptyString (field (field payload "sender") "login") = true
  /\ nonEmptyString (field (field payload "sender") "type") = true
  /\ isNumber (field (field payload "sender") "id") = true
  /\ nonEmptyString (field (field payload "repository") "full_name") = true.
Proof.
  intros Hok. pose proof (validate_accepts payload Hok) as Hall.
  pose proof (Hall PayloadType) as Hp. cbn [passes statedPasses] in Hp.
  pose proof (Hall Action) as Ha. pose proof (Hall Repository) as Hr.
  pose proof (Hall Number) as Hn. pose proof (Hall Sender) as Hs.
  pose proof (Hall SenderLogin) as Hl. pose proof (Hall SenderType) as Ht.
  pose proof (Hall SenderId) as Hi. pose proof (Hall RepoFullName) as Hf.
  cbn [passes statedPasses] in Ha, Hr, Hn, Hs, Hl, Ht, Hi, Hf.
  rewrite (within_object payload _ Hp) in Ha.
  rewrite (within_object payload _ Hp) in Hr.
  rewrite (within_object payload _ Hp) in Hn.
  rewrite (within_object payload _ Hp) in Hs.
  rewrite (within_object _ _ Hs) in Hl.
  rewrite (within_object _ _ Hs) in Ht.
  rewrite (within_object _ _ Hs) in Hi.
  rewrite (within_object _ _ Hr) in Hf.
  repeat split; assumption.
Qed.

End Validation.

(** C4, as the validator has it.  The validator runs the ten checks in the
    order of section 4.1 and stops at the first that fails: it computes
    what [validateInOrder] computes.  The checks are those of section 4.1
    except the one on the action, which has to be a string that is not
    empty.  So a check that fails after all earlier ones passed decides the
    rejection, whatever later checks would say; a payload failing one check
    only is rejected with that check's code; an object lacking both action
    and sender is rejected for its action; and every rejection is a
    [WebhookError] with status 400 and the code of its check, the codes
    being pairwise different. *)
Theorem validation_stops_at_first_failure :
  (forall payload, validateWebhookPayload payload = validateInOrder payload)
  /\ (forall payload before c after,
        validationOrder = (before ++ c :: after)%list ->
        (forall c', In c' before -> passes c' payload = true) ->
        passes c payload = false ->
        validateWebhookPayload payload = Throw (rejection c))
  /\ (forall payload c,
        passes c payload = false ->
        (forall c', c' <> c -> passes c' payload = true) ->
        validateWebhookPayload payload = Throw (rejection c))
  /\ (forall payload,
        nonNullObject payload = true ->
        field payload "action" = Undefined ->
        field payload "sender" = Undefined ->
        validateWebhookPayload payload = Throw (rejection Action))
  /\ (forall payload e,
        validateWebhookPayload payload = Throw e ->
        exists c, e = rejection c /\ knownStatus e = 400%Z /\ knownCode e = codeOf c)
  /\ (forall c c', codeOf c = codeOf c' -> c = c')
  /\ (forall payload c, c <> Action -> passes c payload = statedPasses c payload)
  /\ (forall payload,
        passes Action payload
        = statedPasses Action payload
          && negb (sameString (field payload "action") EmptyString)).
Proof.
  split; [exact validate_in_order|].
  split.
  { intros payload before c after Horder Hbefore Hfail.
    rewrite validate_in_order. unfold validateInOrder, firstFailure.
    rewrite Horder, (find_first _ before after c); [reflexivity| |].
    - intros y Hy. now rewrite (Hbefore y Hy).
    - now rewrite Hfail. }
  split.
  { intros payload c Hfail Hothers.
    rewrite validate_in_order.
    unfold validateInOrder, firstFailure, validationOrder.
    destruct c; cbn [find];
      repeat (match goal with
              | |- context [passes ?c' payload] =>
                  first [ rewrite Hfail | rewrite (Hothers c') by discriminate ];
                  cbn [negb]
              end);
      reflexivity. }
  split.
  { intros payload Hp Ha _.
    rewrite validate_in_order.
    unfold validateInOrder, firstFailure, validationOrder.
    cbn [find passes statedPasses].
    rewrite (within_object payload _ Hp), Hp, Ha. reflexivity. }
  split.
  { intros payload e He.
    destruct (validate_throws payload e He) as [c [-> _]].
    exists c. repeat split. }
  split.
  { intros c c'. destruct c, c'; simpl; intros H; try reflexivity; discriminate H. }
  split.
  { intros payload c Hc. destruct c; try reflexivity. now elim Hc. }
  intros payload. cbn [passes statedPasses]. unfold within, nonEmptyString, isString.
  destruct (nonNullObject payload) eqn:Hp; cbn [negb orb].
  - destruct (field payload "action") as [| | b | n | s | items | members]; simpl;
      rewrite ?andb_false_r; try reflexivity.
    now rewrite andb_true_r.
  - destruct payload; try reflexivity; discriminate Hp.
Qed.

Lemma validation_stops_at_first_failure_witness :
  validateWebhookPayload payloadWithoutSender = Throw (rejection Sender)
  /\ validateWebhookPayload payloadWithoutLogin = Throw (rejection SenderLogin)
  /\ validateWebhookPayload payloadWithoutSender = Throw (rejection Sender)
  /\ validateWebhookPayload payloadWithoutRepository = Throw (rejection Repository)
  /\ validateWebhookPayload payloadThatIsText = Throw (rejection PayloadType)
  /\ validateWebhookPayload payloadWithoutActionAndSender = Throw (rejection Action)
  /\ exists c, WebhookError "Sender missing required field: login" 400 "MISSING_SENDER_LOGIN"
               = rejection c
               /\ knownStatus (rejection SenderLogin) = 400%Z
               /\ knownCode (rejection SenderLogin) = codeOf c.
Proof.
  destruct validation_stops_at_first_failure
    as [_ [Hfirst [Hone [Hboth [Hthrows _]]]]].
  split.
  { apply (Hfirst payloadWithoutSender
             [PayloadType; Action; PullRequest; Repository; Number]
             Sender
             [SenderLogin; SenderType; SenderId; RepoFullName]).
    - reflexivity.
    - intros c' Hin. simpl in Hin.
      repeat (destruct Hin as [<-|Hin]; [reflexivity|]). contradiction.
    - reflexivity. }
  split.
  { apply (Hone payloadWithoutLogin SenderLogin).
    - reflexivity.
    - intros c' Hc'. destruct c'; try reflexivity. contradiction. }
  split.
  { apply (Hone payloadWithoutSender Sender).
    - reflexivity.
    - intros c' Hc'. destruct c'; try reflexivity. contradiction. }
  split.
  { apply (Hone payloadWithoutRepository Repository).
    - reflexivity.
    - intros c' Hc'. destruct c'; try reflexivity. contradiction. }
  split.
  { apply (Hone payloadThatIsText PayloadType).
    - reflexivity.
    - intros c' Hc'. destruct c'; try reflexivity. contradiction. }
  split.
  { apply (Hboth payloadWithoutActionAndSender); reflexivity. }
  apply (Hthrows payloadWithoutLogin). reflexivity.
Defined.

(** C4 as stated fails.  With the checks as section 4.1 words them, a
    payload whose action is the empty string and that has no sender fails
    the check on the sender and no other; the validator rejects it for its
    action. *)
Lemma empty_action_preempts_the_failing_check :
  ~ (forall payload c,
       statedPasses c payload = false ->
       (forall c', c' <> c -> statedPasses c' payload = true) ->
       thrownCode (validateWebhookPayload payload) = Some (codeOf c)).
Proof.
  intros H.
  assert (Hcode : thrownCode (validateWebhookPayload payloadWithEmptyActionWithoutSender)
                  = Some (codeOf Sender)).
  { apply H; [reflexivity|].
    intros c' Hc'. destruct c'; try reflexivity. contradiction. }
  discriminate Hcode.
Qed.

(** C5, as the validator has it.  For a payload that is a non-null object,
    the validator fails with MISSING_ACTION exactly when the action member
    is not a non-empty string: when it is absent, is not a string, or is
    the empty string.  A payload whose action is a non-empty string passes
    this check. *)
Theorem missing_action_iff_not_nonempty_string (payload : value) :
  nonNullObject payload = true ->
  (thrownCode (validateWebhookPayload payload) = Some "MISSING_ACTION"
   <-> ~ (exists s, field payload "action" = Str s /\ s <> EmptyString))
  /\ (thrownCode (validateWebhookPayload payload) = Some "MISSING_ACTION"
      <-> field payload "action" = Undefined
          \/ typeof (field payload "action") <> "string"
          \/ field payload "action" = Str EmptyString).
Proof.
  intros Hp.
  assert (Hcode : thrownCode (validateWebhookPayload payload) = Some "MISSING_ACTION"
                  <-> nonEmptyString (field payload "action") = false).
  { rewrite validate_in_order.
    unfold validateInOrder, firstFailure, validationOrder. cbn [find].
    change (passes PayloadType payload) with (nonNullObject payload).
    change (passes Action payload)
      with (within payload (nonEmptyString (field payload "action"))).
    rewrite (within_object payload _ Hp), Hp. cbn [negb].
    destruct (nonEmptyString (field payload "action")); cbn [negb].
    - repeat (match goal with
              | |- context [if negb (passes ?c payload) then _ else _] =>
                  destruct (passes c payload); cbn [negb]
              end);
        simpl; split; discriminate.
    - simpl. split; reflexivity. }
  rewrite Hcode. unfold nonEmptyString.
  destruct (field payload "action") as [| | b | n | s | items | members]; simpl.
  all: try (split; split;
            [ intros _ [s' [Hs' _]]; discriminate Hs'
            | reflexivity
            | intros _; first [ left; reflexivity | right; left; discriminate ]
            | reflexivity ]).
  1-2: rewrite andb_false_r; split; split;
    [ intros _ [s' [Hs' _]]; discriminate Hs'
    | reflexivity
    | intros _; right; left; discriminate
    | reflexivity ].
  - rewrite andb_true_r, negb_false_iff.
    destruct (String.eqb_spec s EmptyString) as [->|Hs]; split; split.
    + intros _ [s' [Hs' Hne]]. injection Hs' as <-. now apply Hne.
    + reflexivity.
    + intros _. right; right; reflexivity.
    + reflexivity.
    + discriminate.
    + intros H. exfalso. apply H. exists s. split; [reflexivity | exact Hs].
    + discriminate.
    + intros [H | [H | H]]; [discriminate H | now elim H | congruence].
Qed.

Lemma missing_action_iff_not_nonempty_string_witness :
  thrownCode (validateWebhookPayload payloadWithEmptyAction) = Some "MISSING_ACTION"
  <-> ~ (exists s, field payloadWithEmptyAction "action" = Str s /\ s <> EmptyString).
Proof.
  apply (missing_action_iff_not_nonempty_string payloadWithEmptyAction).
  reflexivity.
Defined.

(** C5 as stated fails: an action that is the empty string is a string, and
    the payload is still rejected with MISSING_ACTION. *)
Lemma empty_action_is_rejected :
  ~ (forall payload,
       nonNullObject payload = true ->
       (thrownCode (validateWebhookPayload payload) = Some "MISSING_ACTION"
        <-> field payload "action" = Undefined
            \/ typeof (field payload "action") <> "string")).
Proof.
  intros H.
  destruct (H payloadWithEmptyAction eq_refl) as [Hto _].
  destruct (Hto eq_refl) as [Habsent | Hnotstring].
  - discriminate Habsent.
  - apply Hnotstring. reflexivity.
Qed.

(** C6, as the validator has it.  Every accepted payload has a sender whose
    login and type are non-empty strings and whose id is a number; nothing
    more is known of that number. *)
Theorem accepted_sender_is_well_typed (payload : value) :
  validateWebhookPayload payload = Normal tt ->
  exists user,
    senderOf payload = Some user
    /\ login user <> EmptyString
    /\ type user <> EmptyString
    /\ field (field payload "sender") "login" = Str (login user)
    /\ field (field payload "sender") "type" = Str (type user)
    /\ field (field payload "sender") "id" = Num (id user).
Proof.
  intros Hok.
  destruct (accepted_members payload Hok) as (_ & _ & _ & _ & _ & Hl & Ht & Hi & _).
  unfold senderOf.
  unfold nonEmptyString, isNumber in *.
  destruct (field (field payload "sender") "login") as [| | |?|l|?|?];
    simpl in Hl; rewrite ?andb_false_r in Hl; try discriminate.
  destruct (field (field payload "sender") "type") as [| | |?|t|?|?];
    simpl in Ht; rewrite ?andb_false_r in Ht; try discriminate.
  destruct (field (field payload "sender") "id") as [| | |n|?|?|?];
    simpl in Hi; try discriminate.
  exists {| login := l; type := t; id := n |}. simpl.
  rewrite andb_true_r in Hl, Ht. apply negb_true_iff in Hl, Ht.
  apply String.eqb_neq in Hl, Ht.
  repeat split; assumption.
Qed.

Lemma accepted_sender_is_well_typed_witness :
  exists user,
    senderOf payloadWithFractionalId = Some user
    /\ login user <> EmptyString
    /\ type user <> EmptyString
    /\ field (field payloadWithFractionalId "sender") "login" = Str (login user)
    /\ field (field payloadWithFractionalId "sender") "type" = Str (type user)
    /\ field (field payloadWithFractionalId "sender") "id" = Num (id user).
Proof.
  apply (accepted_sender_is_well_typed payloadWithFractionalId). reflexivity.
Defined.

(** C6 as stated fails: a payload whose sender id is 3/2 is accepted, and
    3/2 is not an integer. *)
Lemma fractional_id_is_accepted :
  ~ (forall payload,
       validateWebhookPayload payload = Normal tt -> ActorInvariant payload).
Proof.
  intros H.
  destruct (H payloadWithFractionalId eq_refl) as [_ [_ [n [Hn Hint]]]].
  injection Hn as <-. discriminate Hint.
Qed.

(** ** The API client *)

Section Traces.

Lemma bind_ret {A B : Type} (a : A) (k : A -> M B) : bind (ret a) k = k a.
Proof. unfold bind, ret. now destruct (k a). Qed.

Lemma bind_lift {A B : Type} (a : A) (k : A -> M B) :
  bind (lift (Normal a)) k = k a.
Proof. exact (bind_ret a k). Qed.

Lemma try_catch_ret {A : Type} (a : A) (h : exn -> M A) :
  try_catch (ret a) h = ret a.
Proof. reflexivity. Qed.

Lemma try_catch_lift {A : Type} (a : A) (h : exn -> M A) :
  try_catch (lift (Normal a)) h = ret a.
Proof. reflexivity. Qed.

End Traces.

Lemma apiError_is_GitHubApiError (rt : runtime) (repo issueNumber : value)
    (response : fetchResponse) (errorText : string) :
  exists message mapped code,
    GitHubApiClient.apiError rt repo issueNumber response errorText
    = GitHubApiError message mapped code.
Proof.
  unfold GitHubApiClient.apiError.
  repeat (match goal with
          | |- context [if ?b then _ else _] => destruct b
          end); do 3 eexists; reflexivity.
Qed.

(** C7.  When the downstream answer is not a 2xx and its body was read as
    [errorText], [postComment] sends its one request, logs the details and
    throws a [GitHubApiError] whose code and status follow the table of
    the wrapper: 401 gives GITHUB_AUTH_FAILED/401; 403 gives
    GITHUB_RATE_LIMIT/429 when the body contains "rate limit" and
    GITHUB_FORBIDDEN/403 when it does not; 404 gives GITHUB_NOT_FOUND/404;
    500 and above give GITHUB_SERVER_ERROR/503; any other status gives
    GITHUB_API_REQUEST_FAILED with the downstream status itself. *)
Theorem postComment_maps_downstream_status
    (rt : runtime) (self : GitHubApiClient.t) (repo issueNumber : value)
    (body : string) (response : fetchResponse) (errorText : string) :
  fetch rt (GitHubApiClient.commentRequest rt self repo issueNumber body)
    = Resolves response ->
  responseBody response = BodyText errorText ->
  ok response = false ->
  exists message mapped code,
    GitHubApiClient.postComment rt self repo issueNumber body
    = ([Fetch (GitHubApiClient.commentRequest rt self repo issueNumber body);
        ConsoleError "GitHub API Error Details:"],
       Throw (GitHubApiError message mapped code))
    /\ (status response = 401%Z ->
        code = "GITHUB_AUTH_FAILED" /\ mapped = 401%Z)
    /\ (status response = 403%Z -> occursIn "rate limit" errorText ->
        code = "GITHUB_RATE_LIMIT" /\ mapped = 429%Z)
    /\ (status response = 403%Z -> ~ occursIn "rate limit" errorText ->
        code = "GITHUB_FORBIDDEN" /\ mapped = 403%Z)
    /\ (status response = 404%Z ->
        code = "GITHUB_NOT_FOUND" /\ mapped = 404%Z)
    /\ ((500 <= status response)%Z ->
        code = "GITHUB_SERVER_ERROR" /\ mapped = 503%Z)
    /\ (status response <> 401%Z -> status response <> 403%Z ->
        status response <> 404%Z -> (status response < 500)%Z ->
        code = "GITHUB_API_REQUEST_FAILED" /\ mapped = status response).
Proof.
  intros Hfetch Hbody Hok.
  assert (Hrun : GitHubApiClient.postComment rt self repo issueNumber body
                 = ([Fetch (GitHubApiClient.commentRequest rt self repo issueNumber body);
                     ConsoleError "GitHub API Error Details:"],
                    Throw (GitHubApiClient.apiError rt repo issueNumber response errorText))).
  { unfold GitHubApiClient.postComment, await_fetch, await_text.
    rewrite Hfetch. cbn [bind emit ret app]. rewrite Hok, Hbody.
    destruct (apiError_is_GitHubApiError rt repo issueNumber response errorText)
      as [m [st [c Hshape]]].
    cbn. rewrite Hshape. reflexivity. }
  rewrite Hrun. unfold GitHubApiClient.apiError.
  pose proof (includes_occursIn "rate limit" errorText) as Hinc.
  destruct (Z.eqb_spec (status response) 401) as [E401|N401].
  { do 3 eexists. split; [reflexivity|]. repeat split; intros; try lia. }
  destruct (Z.eqb_spec (status response) 403) as [E403|N403].
  { destruct (includes errorText "rate limit").
    - do 3 eexists. split; [reflexivity|]. repeat split; intros; try lia.
      + exfalso. match goal with H : ~ occursIn _ _ |- _ => apply H end.
        now apply Hinc.
      + exfalso. match goal with H : ~ occursIn _ _ |- _ => apply H end.
        now apply Hinc.
    - do 3 eexists. split; [reflexivity|]. repeat split; intros; try lia.
      + match goal with H : occursIn _ _ |- _ => apply Hinc in H; discriminate H end.
      + match goal with H : occursIn _ _ |- _ => apply Hinc in H; discriminate H end. }
  destruct (Z.eqb_spec (status response) 404) as [E404|N404].
  { do 3 eexists. split; [reflexivity|]. repeat split; intros; try lia. }
  destruct (Z.geb_spec (status response) 500) as [G500|L500].
  { do 3 eexists. split; [reflexivity|]. repeat split; intros; try lia. }
  do 3 eexists. split; [reflexivity|]. repeat split; intros; try lia.
Qed.

Lemma postComment_maps_downstream_status_witness :
  exists message mapped code,
    GitHubApiClient.postComment
      (sampleRuntime (Some "ghp_sample") (samplePayload (Str "opened") dependabot)
         (Resolves (downstream 403 "API rate limit exceeded")))
      {| GitHubApiClient.token := "ghp_sample" |}
      (Str "octo/demo") (Num (ofZ 12)) "review"
    = ([Fetch (GitHubApiClient.commentRequest
                 (sampleRuntime (Some "ghp_sample")
                    (samplePayload (Str "opened") dependabot)
                    (Resolves (downstream 403 "API rate limit exceeded")))
                 {| GitHubApiClient.token := "ghp_sample" |}
                 (Str "octo/demo") (Num (ofZ 12)) "review");
        ConsoleError "GitHub API Error Details:"],
       Throw (GitHubApiError message mapped code))
    /\ code = "GITHUB_RATE_LIMIT" /\ mapped = 429%Z.
Proof.
  destruct (postComment_maps_downstream_status
              (sampleRuntime (Some "ghp_sample")
                 (samplePayload (Str "opened") dependabot)
                 (Resolves (downstream 403 "API rate limit exceeded")))
              {| GitHubApiClient.token := "ghp_sample" |}
              (Str "octo/demo") (Num (ofZ 12)) "review"
              (downstream 403 "API rate limit exceeded")
              "API rate limit exceeded"
              eq_refl eq_refl eq_refl)
    as [message [mapped [code [Hrun [_ [Hlimit _]]]]]].
  exists message, mapped, code. split; [exact Hrun|].
  apply Hlimit; [reflexivity|].
  exists "API ", " exceeded". reflexivity.
Defined.


(** C7 as stated fails.  The table is claimed for every non-2xx response,
    but the body is read before the status is looked at: a 401 whose body
    cannot be read ends as GITHUB_NETWORK_ERROR with status 503. *)
Lemma unreadable_body_escapes_the_table :
  ~ (forall (rt : runtime) (self : GitHubApiClient.t) (repo issueNumber : value)
            (body : string) (response : fetchResponse),
       fetch rt (GitHubApiClient.commentRequest rt self repo issueNumber body)
         = Resolves response ->
       ok response = false ->
       exists message mapped code,
         snd (GitHubApiClient.postComment rt self repo issueNumber body)
         = Throw (GitHubApiError message mapped code)
         /\ (status response = 401%Z ->
             code = "GITHUB_AUTH_FAILED" /\ mapped = 401%Z)
         /\ (status response = 403%Z ->
             forall errorText,
               responseBody response = BodyText errorText ->
               (occursIn "rate limit" errorText ->
                code = "GITHUB_RATE_LIMIT" /\ mapped = 429%Z)
               /\ (~ occursIn "rate limit" errorText ->
                   code = "GITHUB_FORBIDDEN" /\ mapped = 403%Z))
         /\ (status response = 404%Z ->
             code = "GITHUB_NOT_FOUND" /\ mapped = 404%Z)
         /\ ((500 <= status response)%Z ->
             code = "GITHUB_SERVER_ERROR" /\ mapped = 503%Z)
         /\ (status response <> 401%Z -> status response <> 403%Z ->
             status response <> 404%Z -> (status response < 500)%Z ->
             code = "GITHUB_API_REQUEST_FAILED" /\ mapped = status response)).
Proof.
  intros H.
  destruct (H (sampleRuntime (Some "ghp_sample") openedByDependabot
                 (Resolves unreadable401))
              {| GitHubApiClient.token := "ghp_sample" |}
              (Str "octo/demo") (Num (ofZ 12)) "review" unreadable401
              eq_refl eq_refl)
    as (message & mapped & code & Hrun & H401 & _).
  destruct (H401 eq_refl) as [Hcode _].
  simpl in Hrun. injection Hrun as _ _ Hc.
  rewrite Hcode in Hc. discriminate Hc.
Qed.

(** ** White space *)

Section Trimming.

Lemma trimEnd_empty (s : string) :
  trimEnd s = EmptyString <-> allWhiteSpace s = true.
Proof.
  induction s as [|c s IH]; simpl.
  - split; reflexivity.
  - destruct (isWhiteSpace c); simpl.
    + destruct (String.eqb_spec (trimEnd s) EmptyString) as [E|N].
      * split; [intros _; now apply IH | reflexivity].
      * split; [discriminate | intros H; apply IH in H; contradiction].
    + split; discriminate.
Qed.

Lemma trimStart_allWhiteSpace (s : string) :
  allWhiteSpace (trimStart s) = allWhiteSpace s.
Proof.
  induction s as [|c s IH]; [reflexivity|].
  cbn [trimStart]. destruct (isWhiteSpace c) eqn:Hc.
  - rewrite IH. cbn [allWhiteSpace]. now rewrite Hc.
  - reflexivity.
Qed.

(** [!body.trim()] holds exactly for a body of white space only. *)
Lemma trim_empty (s : string) :
  String.eqb (trim s) EmptyString = allWhiteSpace s.
Proof.
  unfold trim. rewrite <- (trimStart_allWhiteSpace s).
  destruct (String.eqb_spec (trimEnd (trimStart s)) EmptyString) as [E|N];
    destruct (allWhiteSpace (trimStart s)) eqn:Hw; try reflexivity.
  - apply trimEnd_empty in E. congruence.
  - apply trimEnd_empty in Hw. contradiction.
Qed.

Lemma isWhiteSpace_codes (c : ascii) :
  isWhiteSpace c = existsb (Nat.eqb (nat_of_ascii c)) whiteSpaceCodes.
Proof.
  destruct c as [[] [] [] [] [] [] [] []]; reflexivity.
Qed.

Lemma allWhiteSpace_blank (s : string) : allWhiteSpace s = blank s.
Proof.
  unfold blank. induction s as [|c s IH]; [reflexivity|].
  cbn [allWhiteSpace list_ascii_of_string forallb].
  now rewrite IH, isWhiteSpace_codes.
Qed.

End Trimming.

(** ** Responses *)

Section Responses.

Variable rt : runtime.

Lemma carriesBody_spec (status : Z) :
  carriesBody status = true
  <-> (200 <= status <= 599)%Z
      /\ status <> 204%Z /\ status <> 205%Z /\ status <> 304%Z.
Proof.
  unfold carriesBody, nullBodyStatus.
  rewrite !andb_true_iff, negb_true_iff, !orb_false_iff, !Z.leb_le, !Z.eqb_neq.
  lia.
Qed.

Lemma createSuccessResponse_run (message : string) :
  createSuccessResponse rt message = Normal (successEnvelope message (now rt)).
Proof. reflexivity. Qed.

Lemma createErrorResponse_run (code message : string) (status : Z) :
  carriesBody status = true ->
  createErrorResponse rt code message status
  = Normal (errorEnvelope status code message (now rt)).
Proof.
  unfold carriesBody, createErrorResponse, newResponse, errorEnvelope.
  intros H. apply andb_true_iff in H. destruct H as [Hrange Hnull].
  apply negb_true_iff in Hnull. now rewrite Hrange, Hnull.
Qed.

Lemma createErrorResponse_throws (code message : string) (status : Z) :
  carriesBody status = false ->
  exists name text,
    createErrorResponse rt code message status = Throw (NativeError name text).
Proof.
  unfold carriesBody, createErrorResponse, newResponse.
  destruct ((200 <=? status) && (status <=? 599))%Z; cbn [negb andb].
  - intros H. apply negb_false_iff in H. rewrite H. do 2 eexists. reflexivity.
  - intros _. do 2 eexists. reflexivity.
Qed.

(** The outer [catch], for an error of one of the three known classes. *)
Lemma respondToError_known (e : exn) :
  isKnownError e = true ->
  respondToError rt e
  = ([ConsoleError "Webhook handler error:"],
     createErrorResponse rt (knownCode e) (errorMessage e) (knownStatus e)).
Proof.
  intros H. unfold respondToError. rewrite H. reflexivity.
Qed.

End Responses.

(** ** The API client, case by case *)

Section PostComment.

Variable rt : runtime.
Variable self : GitHubApiClient.t.
Variables repo issueNumber : value.
Variable body : string.

Let request : fetchRequest :=
  GitHubApiClient.commentRequest rt self repo issueNumber body.

(** What [postComment] does, by what [fetch] does. *)
Lemma postComment_run :
  GitHubApiClient.postComment rt self repo issueNumber body
  = match fetch rt request with
    | Resolves response =>
        if ok response then ([Fetch request], Normal tt)
        else match responseBody response with
             | BodyText errorText =>
                 ([Fetch request; ConsoleError "GitHub API Error Details:"],
                  Throw (GitHubApiClient.apiError rt repo issueNumber response errorText))
             | BodyFails name message =>
                 ([Fetch request; ConsoleError "GitHub API Network Error:"],
                  Throw (networkError name message))
             end
    | Rejects name message =>
        ([Fetch request; ConsoleError "GitHub API Network Error:"],
         Throw (networkError name message))
    end.
Proof.
  unfold GitHubApiClient.postComment, await_fetch, await_text, networkError.
  fold request.
  destruct (fetch rt request) as [response | name message];
    cbn [bind emit ret throw app].
  - destruct (ok response); cbn [negb]; [reflexivity|].
    destruct (responseBody response) as [errorText | name message].
    + destruct (apiError_is_GitHubApiError rt repo issueNumber response errorText)
        as [m [st [c Hshape]]].
      cbn. rewrite Hshape. reflexivity.
    + cbn.
      destruct (String.eqb name "AbortError" || includes message "timeout");
        reflexivity.
  - cbn.
    destruct (String.eqb name "AbortError" || includes message "timeout");
      reflexivity.
Qed.

Lemma apiError_code (response : fetchResponse) (errorText : string) :
  ok response = false ->
  exists message mapped code,
    GitHubApiClient.apiError rt repo issueNumber response errorText
    = GitHubApiError message mapped code
    /\ In code apiErrorCodes /\ is2xx mapped = false.
Proof.
  intros Hok. unfold GitHubApiClient.apiError.
  repeat (match goal with
          | |- context [if ?b then _ else _] => destruct b
          end);
    do 3 eexists; (split; [reflexivity|]); (split; [simpl; tauto|]);
    first [reflexivity | exact Hok].
Qed.

Lemma networkError_code (name message : string) :
  exists text mapped code,
    networkError name message = GitHubApiError text mapped code
    /\ In code apiErrorCodes /\ is2xx mapped = false.
Proof.
  unfold networkError.
  destruct (String.eqb name "AbortError" || includes message "timeout");
    do 3 eexists; (split; [reflexivity|]); (split; [simpl; tauto|]); reflexivity.
Qed.

(** The status of an API error: one a response can carry, except where it is
    the downstream status itself and that status is below 200 or is 304. *)
Lemma apiError_cases (response : fetchResponse) (errorText : string) :
  ok response = false ->
  exists message mapped code,
    GitHubApiClient.apiError rt repo issueNumber response errorText
    = GitHubApiError message mapped code
    /\ In code apiErrorCodes
    /\ is2xx mapped = false
    /\ (carriesBody mapped = false
        <-> (status response < 200)%Z \/ status response = 304%Z).
Proof.
  intros Hok. unfold GitHubApiClient.apiError.
  assert (Hnot2xx : ~ (200 <= status response <= 299)%Z).
  { unfold ok in Hok. apply andb_false_iff in Hok.
    rewrite !Z.leb_gt in Hok. lia. }
  destruct (Z.eqb_spec (status response) 401) as [E|N1].
  { do 3 eexists. split; [reflexivity|]. split; [simpl; tauto|].
    split; [reflexivity|]. split; [discriminate | lia]. }
  destruct (Z.eqb_spec (status response) 403) as [E|N3].
  { destruct (includes errorText "rate limit");
      do 3 eexists; (split; [reflexivity|]); (split; [simpl; tauto|]);
      (split; [reflexivity|]); (split; [discriminate | lia]). }
  destruct (Z.eqb_spec (status response) 404) as [E|N4].
  { do 3 eexists. split; [reflexivity|]. split; [simpl; tauto|].
    split; [reflexivity|]. split; [discriminate | lia]. }
  destruct (Z.geb_spec (status response) 500) as [G|L].
  { do 3 eexists. split; [reflexivity|]. split; [simpl; tauto|].
    split; [reflexivity|]. split; [discriminate | lia]. }
  do 3 eexists. split; [reflexivity|]. split; [simpl; tauto|].
  split; [exact Hok|].
  pose proof (carriesBody_spec (status response)) as Hspec.
  destruct (carriesBody (status response)).
  - split; [discriminate|]. intros H. destruct Hspec as [Hspec _].
    specialize (Hspec eq_refl). lia.
  - split; [intros _ | reflexivity].
    destruct (Z_lt_dec (status response) 200) as [|Hge]; [left; assumption|].
    destruct (Z.eq_dec (status response) 304) as [|Hne]; [right; assumption|].
    exfalso. assert (true = true -> False); [|tauto].
    intros _. assert (false = true); [|discriminate].
    apply Hspec. lia.
Qed.

End PostComment.

(** X5.  [postComment] returns normally exactly when [fetch] resolves with a
    2xx response; the request is then the only event, and the body of the
    response is not read. *)
Theorem postComment_succeeds_iff_ok
    (rt : runtime) (self : GitHubApiClient.t) (repo issueNumber : value)
    (body : string) :
  (snd (GitHubApiClient.postComment rt self repo issueNumber body) = Normal tt
   <-> exists response,
         fetch rt (GitHubApiClient.commentRequest rt self repo issueNumber body)
           = Resolves response
         /\ ok response = true)
  /\ (snd (GitHubApiClient.postComment rt self repo issueNumber body) = Normal tt ->
      GitHubApiClient.postComment rt self repo issueNumber body
      = ([Fetch (GitHubApiClient.commentRequest rt self repo issueNumber body)],
         Normal tt)).
Proof.
  rewrite postComment_run.
  destruct (fetch rt _) as [response | name message].
  - destruct (ok response) eqn:Hok.
    + split; [|reflexivity].
      split; [intros _; exists response; split; [reflexivity | exact Hok] | reflexivity].
    + destruct (responseBody response); (split; [|discriminate]);
        (split; [discriminate | intros [r [Hr Hrok]]; injection Hr as <-; congruence]).
  - split; [|discriminate].
    split; [discriminate | intros [r [Hr _]]; discriminate Hr].
Qed.

Lemma postComment_succeeds_iff_ok_witness :
  GitHubApiClient.postComment
    (sampleRuntime (Some "ghp_sample") openedByDependabot created)
    {| GitHubApiClient.token := "ghp_sample" |}
    (Str "octo/demo") (Num (ofZ 12)) "review"
  = ([Fetch (GitHubApiClient.commentRequest
               (sampleRuntime (Some "ghp_sample") openedByDependabot created)
               {| GitHubApiClient.token := "ghp_sample" |}
               (Str "octo/demo") (Num (ofZ 12)) "review")],
     Normal tt).
Proof.
  apply (proj2 (postComment_succeeds_iff_ok
                  (sampleRuntime (Some "ghp_sample") openedByDependabot created)
                  {| GitHubApiClient.token := "ghp_sample" |}
                  (Str "octo/demo") (Num (ofZ 12)) "review")).
  reflexivity.
Defined.

(** X6.  When [fetch] rejects, [postComment] logs a network error and throws
    a [GitHubApiError] with status 503: GITHUB_TIMEOUT when the rejection is
    named AbortError or its message contains "timeout", and
    GITHUB_NETWORK_ERROR, quoting the message, otherwise. *)
Theorem rejected_fetch_is_a_503
    (rt : runtime) (self : GitHubApiClient.t) (repo issueNumber : value)
    (body name message : string) :
  fetch rt (GitHubApiClient.commentRequest rt self repo issueNumber body)
    = Rejects name message ->
  exists text code,
    GitHubApiClient.postComment rt self repo issueNumber body
    = ([Fetch (GitHubApiClient.commentRequest rt self repo issueNumber body);
        ConsoleError "GitHub API Network Error:"],
       Throw (GitHubApiError text 503 code))
    /\ (name = "AbortError" \/ occursIn "timeout" message ->
        code = "GITHUB_TIMEOUT"
        /\ text = "GitHub API request timed out. Please try again later.")
    /\ (name <> "AbortError" -> ~ occursIn "timeout" message ->
        code = "GITHUB_NETWORK_ERROR"
        /\ text = "Network error while contacting GitHub API: " ++ message).
Proof.
  intros Hfetch. rewrite postComment_run, Hfetch. unfold networkError.
  pose proof (includes_occursIn "timeout" message) as Hinc.
  destruct (String.eqb_spec name "AbortError") as [Hname|Hname]; cbn [orb].
  - do 2 eexists. split; [reflexivity|]. split; [intros _; now split|].
    intros Hn. contradiction.
  - destruct (includes message "timeout").
    + do 2 eexists. split; [reflexivity|]. split; [intros _; now split|].
      intros _ Hno. exfalso. apply Hno. now apply Hinc.
    + do 2 eexists. split; [reflexivity|]. split; [|intros _ _; now split].
      intros [Hn | Hocc]; [contradiction|].
      apply Hinc in Hocc. discriminate Hocc.
Qed.

Lemma rejected_fetch_is_a_503_witness :
  exists text code,
    GitHubApiClient.postComment
      (sampleRuntime (Some "ghp_sample") openedByDependabot aborted)
      {| GitHubApiClient.token := "ghp_sample" |}
      (Str "octo/demo") (Num (ofZ 12)) "review"
    = ([Fetch (GitHubApiClient.commentRequest
                 (sampleRuntime (Some "ghp_sample") openedByDependabot aborted)
                 {| GitHubApiClient.token := "ghp_sample" |}
                 (Str "octo/demo") (Num (ofZ 12)) "review");
        ConsoleError "GitHub API Network Error:"],
       Throw (GitHubApiError text 503 code))
    /\ code = "GITHUB_TIMEOUT".
Proof.
  destruct (rejected_fetch_is_a_503
              (sampleRuntime (Some "ghp_sample") openedByDependabot aborted)
              {| GitHubApiClient.token := "ghp_sample" |}
              (Str "octo/demo") (Num (ofZ 12)) "review"
              "AbortError" "The operation was aborted" eq_refl)
    as [text [code [Hrun [Htimeout _]]]].
  exists text, code. split; [exact Hrun|].
  apply Htimeout. left. reflexivity.
Defined.

(** X7.  When the response is not a 2xx and its body cannot be read, the
    status is never looked at: whatever it is, 401 included, [postComment]
    treats the failure as a network failure and throws GITHUB_TIMEOUT or
    GITHUB_NETWORK_ERROR with status 503, by the name and message of the
    read error. *)
Theorem unreadable_error_body_is_a_503
    (rt : runtime) (self : GitHubApiClient.t) (repo issueNumber : value)
    (body name message : string) (response : fetchResponse) :
  fetch rt (GitHubApiClient.commentRequest rt self repo issueNumber body)
    = Resolves response ->
  ok response = false ->
  responseBody response = BodyFails name message ->
  exists text code,
    GitHubApiClient.postComment rt self repo issueNumber body
    = ([Fetch (GitHubApiClient.commentRequest rt self repo issueNumber body);
        ConsoleError "GitHub API Network Error:"],
       Throw (GitHubApiError text 503 code))
    /\ (name = "AbortError" \/ occursIn "timeout" message ->
        code = "GITHUB_TIMEOUT")
    /\ (name <> "AbortError" -> ~ occursIn "timeout" message ->
        code = "GITHUB_NETWORK_ERROR"
        /\ text = "Network error while contacting GitHub API: " ++ message).
Proof.
  intros Hfetch Hok Hbody. rewrite postComment_run, Hfetch, Hok, Hbody.
  unfold networkError.
  pose proof (includes_occursIn "timeout" message) as Hinc.
  destruct (String.eqb_spec name "AbortError") as [Hname|Hname]; cbn [orb].
  - do 2 eexists. split; [reflexivity|]. split; [reflexivity|].
    intros Hn. contradiction.
  - destruct (includes message "timeout").
    + do 2 eexists. split; [reflexivity|]. split; [reflexivity|].
      intros _ Hno. exfalso. apply Hno. now apply Hinc.
    + do 2 eexists. split; [reflexivity|]. split; [|intros _ _; now split].
      intros [Hn | Hocc]; [contradiction|].
      apply Hinc in Hocc. discriminate Hocc.
Qed.

Lemma unreadable_error_body_is_a_503_witness :
  exists text code,
    GitHubApiClient.postComment
      (sampleRuntime (Some "ghp_sample") openedByDependabot (Resolves unreadable401))
      {| GitHubApiClient.token := "ghp_sample" |}
      (Str "octo/demo") (Num (ofZ 12)) "review"
    = ([Fetch (GitHubApiClient.commentRequest
                 (sampleRuntime (Some "ghp_sample") openedByDependabot
                    (Resolves unreadable401))
                 {| GitHubApiClient.token := "ghp_sample" |}
                 (Str "octo/demo") (Num (ofZ 12)) "review");
        ConsoleError "GitHub API Network Error:"],
       Throw (GitHubApiError text 503 code))
    /\ code = "GITHUB_NETWORK_ERROR"
    /\ text = "Network error while contacting GitHub API: connection reset".
Proof.
  destruct (unreadable_error_body_is_a_503
              (sampleRuntime (Some "ghp_sample") openedByDependabot
                 (Resolves unreadable401))
              {| GitHubApiClient.token := "ghp_sample" |}
              (Str "octo/demo") (Num (ofZ 12)) "review"
              "TypeError" "connection reset" unreadable401
              eq_refl eq_refl eq_refl)
    as [text [code [Hrun [_ Hnetwork]]]].
  exists text, code. split; [exact Hrun|].
  apply Hnetwork.
  - discriminate.
  - intros Hocc. apply (includes_occursIn "timeout" "connection reset") in Hocc.
    discriminate Hocc.
Defined.

(** X8.  Whatever the platform does, [postComment] sends exactly one request
    and either returns or throws a [GitHubApiError]: its code is one of the
    eight codes of the client and its status is outside the 2xx class.  No
    other error leaves it, and it never sends a second request. *)
Theorem postComment_sends_once_and_fails_as_api_error
    (rt : runtime) (self : GitHubApiClient.t) (repo issueNumber : value)
    (body : string) :
  outboundCalls (fst (GitHubApiClient.postComment rt self repo issueNumber body))
  = [GitHubApiClient.commentRequest rt self repo issueNumber body]
  /\ (snd (GitHubApiClient.postComment rt self repo issueNumber body) = Normal tt
      \/ exists message mapped code,
           snd (GitHubApiClient.postComment rt self repo issueNumber body)
           = Throw (GitHubApiError message mapped code)
           /\ In code apiErrorCodes
           /\ is2xx mapped = false).
Proof.
  rewrite postComment_run.
  destruct (fetch rt _) as [response | name message].
  - destruct (ok response) eqn:Hok.
    + split; [reflexivity | left; reflexivity].
    + destruct (responseBody response) as [errorText | name message].
      * split; [reflexivity|]. right.
        destruct (apiError_code rt repo issueNumber response errorText Hok)
          as [m [st [c [E [Hin H2]]]]].
        exists m, st, c. simpl. now rewrite E.
      * split; [reflexivity|]. right.
        destruct (networkError_code name message) as [m [st [c [E [Hin H2]]]]].
        exists m, st, c. simpl. now rewrite E.
  - split; [reflexivity|]. right.
    destruct (networkError_code name message) as [m [st [c [E [Hin H2]]]]].
    exists m, st, c. simpl. now rewrite E.
Qed.


(** ** The entry point, case by case *)

Section HandlerCases.

Variable rt : runtime.

Lemma try_catch_ext {A : Type} (m : M A) (h h' : exn -> M A) :
  (forall e, h e = h' e) -> try_catch m h = try_catch m h'.
Proof.
  intros H. unfold try_catch. destruct m as [t [a|e]]; [reflexivity|].
  now rewrite H.
Qed.

(** What the handler does before it has a validated payload. *)
Lemma handler_run (req : Request) :
  handler rt req
  = if negb (String.eqb (req_method req) "POST") then
      ([], Normal (errorEnvelope 405 "METHOD_NOT_ALLOWED"
                     "Only POST requests are supported" (now rt)))
    else if negb (contentTypeAccepted (req_content_type req)) then
      ([], Normal (errorEnvelope 400 "INVALID_CONTENT_TYPE"
                     "Content-Type must be application/json" (now rt)))
    else if blank (req_text req) then
      (parsingLogs,
       Normal (errorEnvelope 400 "EMPTY_PAYLOAD" "Request body is empty" (now rt)))
    else
      match JSON_parse rt (req_text req) with
      | SyntaxError parserMessage =>
          (parsingLogs,
           Normal (errorEnvelope 400 "INVALID_JSON"
                     ("Failed to parse webhook payload as JSON: " ++ parserMessage)
                     (now rt)))
      | Parsed payload =>
          match firstFailure validationOrder payload with
          | Some c =>
              (validationLogs,
               Normal (errorEnvelope 400 (codeOf c) (messageOf c) (now rt)))
          | None => try_catch (processPayload rt payload) (respondToError rt)
          end
      end.
Proof.
  unfold handler, readPayload, parse. rewrite trim_empty, allWhiteSpace_blank.
  destruct (negb (String.eqb (req_method req) "POST")); [reflexivity|].
  destruct (negb (contentTypeAccepted (req_content_type req))); [reflexivity|].
  destruct (blank (req_text req)); [reflexivity|].
  destruct (JSON_parse rt (req_text req)) as [payload | parserMessage];
    [|reflexivity].
  rewrite try_catch_ret, bind_ret, validate_in_order. unfold validateInOrder.
  destruct (firstFailure validationOrder payload) as [c|]; [reflexivity|].
  rewrite try_catch_lift, bind_ret. reflexivity.
Qed.

Lemma no_failure_is_valid (payload : value) :
  firstFailure validationOrder payload = None ->
  validateWebhookPayload payload = Normal tt.
Proof.
  intros H. rewrite validate_in_order. unfold validateInOrder. now rewrite H.
Qed.

Lemma valid_has_no_failure (payload : value) :
  validateWebhookPayload payload = Normal tt ->
  firstFailure validationOrder payload = None.
Proof.
  rewrite validate_in_order. unfold validateInOrder.
  destruct (firstFailure validationOrder payload); [discriminate | reflexivity].
Qed.

(** A request that carries a valid payload reaches [processPayload] with
    nothing logged on the way. *)
Lemma valid_request_is_processed (req : Request) (payload : value) :
  carriesValidPayload rt req payload ->
  handler rt req = try_catch (processPayload rt payload) (respondToError rt).
Proof.
  intros (Hmethod & Hct & Hbody & Hparse & Hvalid).
  rewrite handler_run, Hmethod, Hct, Hparse, (valid_has_no_failure payload Hvalid).
  rewrite <- allWhiteSpace_blank, <- trim_empty, (proj2 (String.eqb_neq _ _) Hbody).
  reflexivity.
Qed.

(** After validation the members the handler reads are all there. *)
Lemma valid_payload_members (payload : value) :
  validateWebhookPayload payload = Normal tt ->
  nonNullObject payload = true
  /\ nonNullObject (field payload "repository") = true
  /\ nonNullObject (field payload "sender") = true
  /\ exists action, field payload "action" = Str action /\ action <> EmptyString.
Proof.
  intros Hvalid.
  destruct (accepted_members payload Hvalid) as (Hp & Ha & Hr & _ & Hs & _).
  split; [exact Hp|]. split; [exact Hr|]. split; [exact Hs|].
  unfold nonEmptyString in Ha.
  destruct (field payload "action") as [| | |?|a|?|?];
    simpl in Ha; rewrite ?andb_false_r in Ha; try discriminate.
  exists a. split; [reflexivity|].
  rewrite andb_true_r in Ha. apply negb_true_iff in Ha.
  now apply String.eqb_neq.
Qed.

(** What is done with a validated payload. *)
Lemma processPayload_run (payload : value) :
  validateWebhookPayload payload = Normal tt ->
  exists action,
    field payload "action" = Str action
    /\ action <> EmptyString
    /\ processPayload rt payload
       = if String.eqb action "opened" then
           match env_get rt "GITHUB_TOKEN" with
           | Some token =>
               if String.eqb token EmptyString then
                 ([ConsoleError "Configuration error:"],
                  Throw (ConfigurationError
                           "GitHub token not found in environment variables"
                           500 "MISSING_GITHUB_TOKEN"))
               else
                 (try_catch
                    (GitHubApiClient.postComment rt
                       {| GitHubApiClient.token := token |}
                       (field (field payload "repository") "full_name")
                       (field payload "number")
                       (CommentService.generateReviewComment
                          (CommentService.constructor
                             {| GitHubApiClient.token := token |})))
                    (fun commentError =>
                       console_error "Comment posting error:" ;;
                       throw commentError) ;;
                  ret (successEnvelope
                         ("Review comment posted successfully for PR #"
                            ++ ToString rt (field payload "number") ++ " by "
                            ++ ToString rt (field (field payload "sender") "login"))
                         (now rt)))%trace
           | None =>
               ([ConsoleError "Configuration error:"],
                Throw (ConfigurationError
                         "GitHub token not found in environment variables"
                         500 "MISSING_GITHUB_TOKEN"))
           end
         else
           ret (successEnvelope
                  ("Action '" ++ action
                     ++ "' is not in the allow-list. No review comment posted.")
                  (now rt)).
Proof.
  intros Hvalid.
  destruct (valid_payload_members payload Hvalid)
    as (Hp & Hr & Hs & action & Haction & Hne).
  exists action. split; [exact Haction|]. split; [exact Hne|].
  unfold processPayload.
  rewrite (get_field payload "action" Hp), bind_lift, Haction.
  cbn [existsb ALLOWED_ACTIONS sameString orb].
  rewrite orb_false_r.
  destruct (String.eqb action "opened"); cbn [negb]; [|reflexivity].
  unfold GitHubApiClient.constructor.
  destruct (env_get rt "GITHUB_TOKEN") as [token|]; [|reflexivity].
  destruct (String.eqb token EmptyString); [reflexivity|].
  rewrite bind_ret, try_catch_ret, bind_ret.
  rewrite (get_field payload "repository" Hp), bind_lift.
  rewrite (get_field _ "full_name" Hr), bind_lift.
  rewrite (get_field payload "number" Hp), bind_lift.
  rewrite (get_field payload "sender" Hp), !bind_lift.
  rewrite (get_field _ "login" Hs), !bind_lift.
  unfold CommentService.postReviewComment.
  cbn [CommentService.githubApiClient CommentService.constructor].
  f_equal. apply try_catch_ext. intros e.
  rewrite bind_lift, (get_field _ "full_name" Hr), !bind_lift. reflexivity.
Qed.

(** The same, with the outer [catch] around it and [postComment] run. *)
Lemma processed_run (payload : value) :
  validateWebhookPayload payload = Normal tt ->
  exists action,
    field payload "action" = Str action
    /\ action <> EmptyString
    /\ try_catch (processPayload rt payload) (respondToError rt)
       = if String.eqb action "opened" then
           match env_get rt "GITHUB_TOKEN" with
           | Some token =>
               if String.eqb token EmptyString then
                 (configurationLogs,
                  Normal (errorEnvelope 500 "MISSING_GITHUB_TOKEN"
                            "GitHub token not found in environment variables"
                            (now rt)))
               else
                 match fetch rt (requestFor rt token payload) with
                 | Resolves response =>
                     if ok response then
                       ([Fetch (requestFor rt token payload)],
                        Normal (successEnvelope
                                  ("Review comment posted successfully for PR #"
                                     ++ ToString rt (field payload "number")
                                     ++ " by "
                                     ++ ToString rt
                                          (field (field payload "sender") "login"))
                                  (now rt)))
                     else
                       match responseBody response with
                       | BodyText errorText =>
                           (Fetch (requestFor rt token payload)
                              :: ConsoleError "GitHub API Error Details:"
                              :: postingLogs,
                            answerTo rt
                              (GitHubApiClient.apiError rt
                                 (field (field payload "repository") "full_name")
                                 (field payload "number") response errorText))
                       | BodyFails name message =>
                           (Fetch (requestFor rt token payload)
                              :: ConsoleError "GitHub API Network Error:"
                              :: postingLogs,
                            answerTo rt (networkError name message))
                       end
                 | Rejects name message =>
                     (Fetch (requestFor rt token payload)
                        :: ConsoleError "GitHub API Network Error:"
                        :: postingLogs,
                      answerTo rt (networkError name message))
                 end
           | None =>
               (configurationLogs,
                Normal (errorEnvelope 500 "MISSING_GITHUB_TOKEN"
                          "GitHub token not found in environment variables"
                          (now rt)))
           end
         else
           ([], Normal (successEnvelope
                          ("Action '" ++ action
                             ++ "' is not in the allow-list. No review comment posted.")
                          (now rt))).
Proof.
  intros Hvalid.
  destruct (processPayload_run payload Hvalid) as (action & Ha & Hne & ->).
  exists action. split; [exact Ha|]. split; [exact Hne|].
  destruct (String.eqb action "opened"); [|reflexivity].
  destruct (env_get rt "GITHUB_TOKEN") as [token|]; [|reflexivity].
  destruct (String.eqb token EmptyString); [reflexivity|].
  rewrite postComment_run. fold (requestFor rt token payload).
  destruct (fetch rt (requestFor rt token payload)) as [response | name message].
  - destruct (ok response) eqn:Hok; [reflexivity|].
    destruct (responseBody response) as [errorText | name message].
    + destruct (apiError_code rt (field (field payload "repository") "full_name")
                  (field payload "number") response errorText Hok)
        as (m & st & c & -> & _ & _).
      reflexivity.
    + destruct (networkError_code name message) as (m & st & c & -> & _ & _).
      reflexivity.
  - destruct (networkError_code name message) as (m & st & c & -> & _ & _).
    reflexivity.
Qed.

Lemma networkError_answer (name message : string) :
  exists text code,
    networkError name message = GitHubApiError text 503 code
    /\ (code = "GITHUB_TIMEOUT" \/ code = "GITHUB_NETWORK_ERROR")
    /\ answerTo rt (networkError name message)
       = Normal (errorEnvelope 503 code text (now rt)).
Proof.
  unfold networkError.
  destruct (String.eqb name "AbortError" || includes message "timeout");
    do 2 eexists; (split; [reflexivity|]); split; try reflexivity;
    [left | right]; reflexivity.
Qed.

Lemma accepted_sender_shape (payload : value) :
  validateWebhookPayload payload = Normal tt ->
  exists n user,
    field payload "number" = Num n
    /\ senderOf payload = Some user
    /\ field (field payload "sender") "login" = Str (login user).
Proof.
  intros Hvalid.
  destruct (accepted_members payload Hvalid)
    as (_ & _ & _ & Hn & _ & Hl & Ht & Hi & _).
  unfold senderOf. unfold nonEmptyString, isNumber in *.
  destruct (field payload "number") as [| | |n|?|?|?]; try discriminate Hn.
  destruct (field (field payload "sender") "login") as [| | |?|l|?|?];
    simpl in Hl; rewrite ?andb_false_r in Hl; try discriminate Hl.
  destruct (field (field payload "sender") "type") as [| | |?|t|?|?];
    simpl in Ht; rewrite ?andb_false_r in Ht; try discriminate Ht.
  destruct (field (field payload "sender") "id") as [| | |i|?|?|?];
    simpl in Hi; try discriminate Hi.
  exists n, {| login := l; type := t; id := i |}. repeat split.
Qed.

(** Every request takes one of the ways through the entry point. *)
Lemma handler_runs (req : Request) :
  run rt req (fst (handler rt req)) (snd (handler rt req)).
Proof.
  rewrite handler_run.
  destruct (String.eqb_spec (req_method req) "POST") as [Hmethod|Hmethod];
    cbn [negb]; [|now apply run_method].
  destruct (contentTypeAccepted (req_content_type req)) eqn:Hct;
    cbn [negb]; [|now apply run_content_type].
  destruct (blank (req_text req)) eqn:Hblank; [now apply run_empty|].
  destruct (JSON_parse rt (req_text req)) as [payload | parserMessage] eqn:Hparse;
    [|now apply run_syntax].
  destruct (firstFailure validationOrder payload) as [c|] eqn:Hfirst;
    [eapply run_refused; eassumption|].
  pose proof (no_failure_is_valid payload Hfirst) as Hvalid.
  assert (Hreq : carriesValidPayload rt req payload).
  { repeat split; try assumption.
    intros Htrim.
    rewrite <- allWhiteSpace_blank, <- trim_empty, Htrim in Hblank.
    discriminate Hblank. }
  destruct (processed_run payload Hvalid) as (action & Ha & Hne & ->).
  destruct (String.eqb_spec action "opened") as [->|Hother];
    [|eapply run_ignored; eassumption].
  destruct (env_get rt "GITHUB_TOKEN") as [token|] eqn:Htoken;
    [|eapply run_no_token; eauto].
  destruct (String.eqb_spec token EmptyString) as [->|Htok];
    [eapply run_no_token; eauto|].
  assert (Hnetwork : forall name message,
             fetch rt (requestFor rt token payload) = Rejects name message
             \/ (exists response,
                   fetch rt (requestFor rt token payload) = Resolves response
                   /\ ok response = false
                   /\ responseBody response = BodyFails name message) ->
             run rt req
               (Fetch (requestFor rt token payload)
                  :: ConsoleError "GitHub API Network Error:" :: postingLogs)
               (answerTo rt (networkError name message))).
  { intros name message Hhow.
    destruct (networkError_answer name message) as (text & code & Hshape & _ & ->).
    eapply run_network; eassumption. }
  destruct (fetch rt (requestFor rt token payload)) as [response | name message]
    eqn:Hfetch.
  - destruct (ok response) eqn:Hok.
    + destruct (accepted_sender_shape payload Hvalid) as (n & user & Hnum & Huser & Hlogin).
      cbn [fst snd]. rewrite Hnum, Hlogin. cbn [ToString].
      eapply run_posted; eassumption.
    + destruct (responseBody response) as [errorText | name message] eqn:Hbody.
      * destruct (apiError_cases rt (field (field payload "repository") "full_name")
                    (field payload "number") response errorText Hok)
          as (m & st & c & Hshape & _ & _ & _).
        cbn [fst snd]. unfold answerTo. rewrite Hshape. cbn [knownCode errorMessage knownStatus].
        destruct (carriesBody st) eqn:Hcarries.
        -- rewrite (createErrorResponse_run rt c m st Hcarries).
           eapply run_api_error; eassumption.
        -- destruct (createErrorResponse_throws rt c m st Hcarries)
             as (name & text & ->).
           eapply run_api_error_unanswered; eassumption.
      * apply Hnetwork. right. exists response. auto.
  - apply Hnetwork. left. reflexivity.
Qed.

End HandlerCases.

(** ** Every answer, classified *)

Section Answers.

Variable rt : runtime.

Lemma apiError_code_of (repo issueNumber : value) (response : fetchResponse)
    (errorText message : string) (mapped : Z) (code : string) :
  ok response = false ->
  GitHubApiClient.apiError rt repo issueNumber response errorText
  = GitHubApiError message mapped code ->
  In code apiErrorCodes
  /\ is2xx mapped = false
  /\ (carriesBody mapped = false
      <-> (status response < 200)%Z \/ status response = 304%Z).
Proof.
  intros Hok Hshape.
  destruct (apiError_cases rt repo issueNumber response errorText Hok)
    as (m & st & c & E & Hin & H2 & Hc).
  rewrite Hshape in E. injection E as <- <- <-. auto.
Qed.

Lemma networkError_code_of (name message text : string) (mapped : Z)
    (code : string) :
  networkError name message = GitHubApiError text mapped code ->
  In code apiErrorCodes /\ mapped = 503%Z.
Proof.
  unfold networkError.
  destruct (String.eqb name "AbortError" || includes message "timeout");
    intros H; injection H as <- <- <-; simpl; tauto.
Qed.

Lemma later_code (code : string) :
  In code laterCodes ->
  code <> "METHOD_NOT_ALLOWED" /\ code <> "INVALID_CONTENT_TYPE"
  /\ code <> "INTERNAL_ERROR".
Proof.
  simpl. intros H.
  repeat (destruct H as [<-|H]; [repeat split; discriminate|]). contradiction.
Qed.

Lemma check_code_is_later (c : check) : In (codeOf c) laterCodes.
Proof. destruct c; simpl; tauto. Qed.

Lemma api_code_is_later (code : string) :
  In code apiErrorCodes -> In code laterCodes.
Proof.
  intros H. unfold laterCodes. apply in_or_app. right. right. exact H.
Qed.

(** What an answer can be: a silent 200, one of the two early refusals, or
    a logged error with one of the later codes. *)
Lemma answer_classified (req : Request) (response : Response) :
  snd (handler rt req) = Normal response ->
  wellFormedResponse rt response
  /\ ((responseError response = None
       /\ resp_status response = 200%Z
       /\ forall label, ~ In (ConsoleError label) (fst (handler rt req)))
      \/ (responseError response = Some "METHOD_NOT_ALLOWED"
          /\ resp_status response = 405%Z
          /\ req_method req <> "POST"
          /\ fst (handler rt req) = [])
      \/ (responseError response = Some "INVALID_CONTENT_TYPE"
          /\ resp_status response = 400%Z
          /\ req_method req = "POST"
          /\ contentTypeAccepted (req_content_type req) = false
          /\ fst (handler rt req) = [])
      \/ (exists code,
            responseError response = Some code
            /\ In code laterCodes
            /\ is2xx (resp_status response) = false
            /\ req_method req = "POST"
            /\ contentTypeAccepted (req_content_type req) = true
            /\ In (ConsoleError "Webhook handler error:") (fst (handler rt req)))).
Proof.
  intros Hanswer. pose proof (handler_runs rt req) as R.
  rewrite Hanswer in R.
  inversion R as
    [ Hm
    | Hm Hct
    | Hm Hct Hb
    | parserMessage Hm Hct Hb Hp
    | payload c Hm Hct Hb Hp Hf
    | payload action Hreq Ha Hne
    | payload Hreq Ha Htok
    | payload token downstreamResponse n user Hreq Ha Htok Hne Hfetch Hok Hn Hu
    | payload token downstreamResponse errorText message mapped code
        Hreq Ha Htok Hne Hfetch Hok Hbody Hshape Hcarries
    | payload token downstreamResponse errorText message mapped code name text
        Hreq Ha Htok Hne Hfetch Hok Hbody Hshape Hcarries
    | payload token name message text code Hreq Ha Htok Hne Hhow Hshape ];
    subst.
  - split; [repeat split|]. right; left. repeat split; assumption.
  - split; [repeat split|]. right; right; left. repeat split; assumption.
  - split; [repeat split|]. right; right; right.
    exists "EMPTY_PAYLOAD". repeat split; try assumption; simpl; tauto.
  - split; [repeat split|]. right; right; right.
    exists "INVALID_JSON". repeat split; try assumption; simpl; tauto.
  - split; [repeat split|]. right; right; right.
    exists (codeOf c). repeat split; try assumption;
      [apply check_code_is_later | simpl; tauto].
  - split; [repeat split|]. left. repeat split. intros label [].
  - destruct Hreq as (Hm & Hct & _).
    split; [repeat split|]. right; right; right.
    exists "MISSING_GITHUB_TOKEN". repeat split; try assumption; simpl; tauto.
  - split; [repeat split|]. left. repeat split.
    intros label [Hlabel|[]]. discriminate Hlabel.
  - destruct Hreq as (Hm & Hct & _).
    destruct (apiError_code_of _ _ _ _ _ _ _ Hok Hshape) as (Hin & H2 & _).
    split; [split; [reflexivity | split; [exact H2 | reflexivity]]|].
    right; right; right. exists code.
    repeat split; try assumption; [now apply api_code_is_later | simpl; tauto].
  - destruct Hreq as (Hm & Hct & _).
    destruct (networkError_code_of _ _ _ _ _ Hshape) as (Hin & _).
    split; [repeat split|]. right; right; right. exists code.
    repeat split; try assumption; [now apply api_code_is_later | simpl; tauto].
Qed.

(** The one way the handler ends without an answer. *)
Lemma rejection_classified (req : Request) (e : exn) :
  snd (handler rt req) = Throw e ->
  exists payload token response errorText,
    carriesValidPayload rt req payload
    /\ field payload "action" = Str "opened"
    /\ env_get rt "GITHUB_TOKEN" = Some token
    /\ token <> EmptyString
    /\ fetch rt (requestFor rt token payload) = Resolves response
    /\ responseBody response = BodyText errorText
    /\ ((status response < 200)%Z \/ status response = 304%Z).
Proof.
  intros Hthrown. pose proof (handler_runs rt req) as R.
  rewrite Hthrown in R.
  inversion R as
    [ | | | | | | | |
    | payload token downstreamResponse errorText message mapped code name text
        Hreq Ha Htok Hne Hfetch Hok Hbody Hshape Hcarries
    | ]; subst.
  destruct (apiError_code_of _ _ _ _ _ _ _ Hok Hshape) as (_ & _ & Hiff).
  exists payload, token, downstreamResponse, errorText.
  repeat (split; [assumption|]). exact (proj1 Hiff Hcarries).
Qed.

End Answers.

(** ** The entry point *)

Section Opened.

Variable rt : runtime.

(** A request that carries a valid "opened" payload: what the handler does,
    by the token and by what [fetch] does. *)
Lemma opened_request_run (req : Request) (payload : value) :
  carriesValidPayload rt req payload ->
  field payload "action" = Str "opened" ->
  handler rt req
  = match env_get rt "GITHUB_TOKEN" with
    | Some token =>
        if String.eqb token EmptyString then
          (configurationLogs,
           Normal (errorEnvelope 500 "MISSING_GITHUB_TOKEN"
                     "GitHub token not found in environment variables" (now rt)))
        else
          match fetch rt (requestFor rt token payload) with
          | Resolves response =>
              if ok response then
                ([Fetch (requestFor rt token payload)],
                 Normal (successEnvelope
                           ("Review comment posted successfully for PR #"
                              ++ ToString rt (field payload "number") ++ " by "
                              ++ ToString rt (field (field payload "sender") "login"))
                           (now rt)))
              else
                match responseBody response with
                | BodyText errorText =>
                    (Fetch (requestFor rt token payload)
                       :: ConsoleError "GitHub API Error Details:" :: postingLogs,
                     answerTo rt
                       (GitHubApiClient.apiError rt
                          (field (field payload "repository") "full_name")
                          (field payload "number") response errorText))
                | BodyFails name message =>
                    (Fetch (requestFor rt token payload)
                       :: ConsoleError "GitHub API Network Error:" :: postingLogs,
                     answerTo rt (networkError name message))
                end
          | Rejects name message =>
              (Fetch (requestFor rt token payload)
                 :: ConsoleError "GitHub API Network Error:" :: postingLogs,
               answerTo rt (networkError name message))
          end
    | None =>
        (configurationLogs,
         Normal (errorEnvelope 500 "MISSING_GITHUB_TOKEN"
                   "GitHub token not found in environment variables" (now rt)))
    end.
Proof.
  intros Hreq Haction.
  rewrite (valid_request_is_processed rt req payload Hreq).
  destruct Hreq as (_ & _ & _ & _ & Hvalid).
  destruct (processed_run rt payload Hvalid) as (action & Ha & _ & ->).
  rewrite Haction in Ha. injection Ha as <-. reflexivity.
Qed.

Lemma other_request_run (req : Request) (payload : value) (action : string) :
  carriesValidPayload rt req payload ->
  field payload "action" = Str action ->
  action <> "opened" ->
  handler rt req
  = ([], Normal (successEnvelope
                   ("Action '" ++ action
                      ++ "' is not in the allow-list. No review comment posted.")
                   (now rt))).
Proof.
  intros Hreq Haction Hne.
  rewrite (valid_request_is_processed rt req payload Hreq).
  destruct Hreq as (_ & _ & _ & _ & Hvalid).
  destruct (processed_run rt payload Hvalid) as (action' & Ha & _ & ->).
  rewrite Haction in Ha. injection Ha as <-.
  now rewrite (proj2 (String.eqb_neq _ _) Hne).
Qed.

(** Whoever the sender is, a valid "opened" payload makes the handler send
    exactly one request when a token is configured. *)
Lemma opened_payload_is_posted_for_any_sender
    (req : Request) (payload : value) (token : string) :
  carriesValidPayload rt req payload ->
  field payload "action" = Str "opened" ->
  env_get rt "GITHUB_TOKEN" = Some token ->
  token <> EmptyString ->
  outboundCalls (fst (handler rt req)) = [requestFor rt token payload].
Proof.
  intros Hreq Haction Htoken Hne.
  rewrite (opened_request_run req payload Hreq Haction), Htoken,
    (proj2 (String.eqb_neq _ _) Hne).
  destruct (fetch rt (requestFor rt token payload)) as [response | name message];
    [|reflexivity].
  destruct (ok response); [reflexivity|].
  destruct (responseBody response); reflexivity.
Qed.

End Opened.

(** C8.  Without a GITHUB_TOKEN in the environment, every request that
    carries a valid payload with action "opened" is answered with HTTP 500
    and the code MISSING_GITHUB_TOKEN; the trace holds two log entries and
    no outbound request. *)
Theorem missing_token_is_a_500
    (rt : runtime) (req : Request) (payload : value) :
  env_get rt "GITHUB_TOKEN" = None ->
  carriesValidPayload rt req payload ->
  field payload "action" = Str "opened" ->
  handler rt req
  = ([ConsoleError "Configuration error:"; ConsoleError "Webhook handler error:"],
     Normal {| resp_status := 500;
               resp_headers := [("Content-Type", "application/json")];
               resp_body :=
                 ErrorResponse "MISSING_GITHUB_TOKEN"
                   "GitHub token not found in environment variables" (now rt) |})
  /\ outboundCalls (fst (handler rt req)) = []
  /\ (forall response, snd (handler rt req) = Normal response ->
        resp_status response = 500%Z
        /\ responseError response = Some "MISSING_GITHUB_TOKEN").
Proof.
  intros Htoken Hreq Haction.
  rewrite (opened_request_run rt req payload Hreq Haction), Htoken.
  split; [reflexivity|]. split; [reflexivity|].
  intros response H. injection H as <-. split; reflexivity.
Qed.

Lemma missing_token_is_a_500_witness :
  handler (sampleRuntime None (samplePayload (Str "opened") dependabot) created)
          sampleRequest
  = ([ConsoleError "Configuration error:"; ConsoleError "Webhook handler error:"],
     Normal {| resp_status := 500;
               resp_headers := [("Content-Type", "application/json")];
               resp_body :=
                 ErrorResponse "MISSING_GITHUB_TOKEN"
                   "GitHub token not found in environment variables"
                   "2024-01-01T12:00:00.000Z" |}).
Proof.
  apply (missing_token_is_a_500
           (sampleRuntime None (samplePayload (Str "opened") dependabot) created)
           sampleRequest (samplePayload (Str "opened") dependabot)).
  - reflexivity.
  - repeat split. discriminate.
  - reflexivity.
Defined.

(** C9.  A request that carries a valid payload whose action is not
    "opened" is answered at once with HTTP 200 and a message saying that no
    review comment was posted.  Nothing is logged and nothing is sent; the
    answer is a function of the action alone, so the sender plays no part
    in it. *)
Theorem other_action_is_acknowledged
    (rt : runtime) (req : Request) (payload : value) (action : string) :
  carriesValidPayload rt req payload ->
  field payload "action" = Str action ->
  action <> "opened" ->
  handler rt req
  = ([], Normal {| resp_status := 200;
                   resp_headers := [("Content-Type", "application/json")];
                   resp_body :=
                     SuccessResponse
                       ("Action '" ++ action
                          ++ "' is not in the allow-list. No review comment posted.")
                       (now rt) |})
  /\ outboundCalls (fst (handler rt req)) = []
  /\ (forall response, snd (handler rt req) = Normal response ->
        resp_status response = 200%Z
        /\ responseError response = None
        /\ exists message timestamp,
             resp_body response = SuccessResponse message timestamp
             /\ occursIn "No review comment posted." message)
  /\ (forall req' payload',
        carriesValidPayload rt req' payload' ->
        field payload' "action" = Str action ->
        handler rt req' = handler rt req).
Proof.
  intros Hreq Haction Hne.
  rewrite (other_request_run rt req payload action Hreq Haction Hne).
  split; [reflexivity|]. split; [reflexivity|]. split.
  - intros response H. injection H as <-.
    split; [reflexivity|]. split; [reflexivity|].
    eexists. eexists. split; [reflexivity|].
    exists ("Action '" ++ action ++ "' is not in the allow-list. "), EmptyString.
    rewrite !app_assoc_s. reflexivity.
  - intros req' payload' Hreq' Haction'.
    exact (other_request_run rt req' payload' action Hreq' Haction' Hne).
Qed.

Lemma other_action_is_acknowledged_witness :
  handler (sampleRuntime (Some "ghp_sample") (samplePayload (Str "closed") dependabot)
             created)
          sampleRequest
  = ([], Normal {| resp_status := 200;
                   resp_headers := [("Content-Type", "application/json")];
                   resp_body :=
                     SuccessResponse
                       "Action 'closed' is not in the allow-list. No review comment posted."
                       "2024-01-01T12:00:00.000Z" |}).
Proof.
  apply (other_action_is_acknowledged
           (sampleRuntime (Some "ghp_sample") (samplePayload (Str "closed") dependabot)
              created)
           sampleRequest (samplePayload (Str "closed") dependabot) "closed").
  - repeat split. discriminate.
  - reflexivity.
  - discriminate.
Defined.

(** ** The content type gate *)

Lemma accepted_iff_mentions_json (contentType : option string) :
  contentTypeAccepted contentType = true
  <-> exists v, contentType = Some v /\ occursIn "application/json" v.
Proof.
  unfold contentTypeAccepted. destruct contentType as [v|].
  - split.
    + intros H. apply andb_true_iff in H. exists v. split; [reflexivity|].
      apply includes_occursIn, H.
    + intros [v' [Hv' Hinc]]. injection Hv' as <-.
      apply includes_occursIn in Hinc. rewrite Hinc, andb_true_r.
      destruct v; [discriminate Hinc | reflexivity].
  - split; [discriminate | intros [v [Hv _]]; discriminate Hv].
Qed.

(** C10.  On a POST request the content type test passes exactly when the
    header is present and "application/json" occurs somewhere in its value.
    A request that fails the test is answered with HTTP 400 and
    INVALID_CONTENT_TYPE before anything else happens; a request that
    passes it is never answered with that code.  So "text/json" and
    "application/vnd.api+json" are refused, and
    "text/plain; note=application/json" is let through. *)
Theorem content_type_gate :
  (forall contentType,
      contentTypeAccepted contentType = true
      <-> exists v, contentType = Some v /\ occursIn "application/json" v)
  /\ (forall rt req,
        req_method req = "POST" ->
        contentTypeAccepted (req_content_type req) = false ->
        handler rt req
        = ([], Normal {| resp_status := 400;
                         resp_headers := [("Content-Type", "application/json")];
                         resp_body :=
                           ErrorResponse "INVALID_CONTENT_TYPE"
                             "Content-Type must be application/json" (now rt) |})
        /\ exists response,
             snd (handler rt req) = Normal response
             /\ resp_status response = 400%Z
             /\ responseError response = Some "INVALID_CONTENT_TYPE")
  /\ (forall rt req,
        req_method req = "POST" ->
        contentTypeAccepted (req_content_type req) = true ->
        forall response,
          snd (handler rt req) = Normal response ->
          responseError response <> Some "INVALID_CONTENT_TYPE")
  /\ contentTypeAccepted None = false
  /\ contentTypeAccepted (Some "text/json") = false
  /\ contentTypeAccepted (Some "application/vnd.api+json") = false
  /\ contentTypeAccepted (Some "application/json; charset=utf-8") = true
  /\ contentTypeAccepted (Some "text/plain; note=application/json") = true.
Proof.
  split; [exact accepted_iff_mentions_json|].
  split.
  { intros rt req Hmethod Hct. rewrite handler_run, Hmethod, Hct.
    split; [reflexivity|]. eexists. repeat split. }
  split.
  { intros rt req Hmethod Hct response Hrun.
    destruct (answer_classified rt req response Hrun)
      as [_ [(Hnone & _) | [(_ & _ & Hm & _) | [(_ & _ & _ & Hct' & _)
                                                | (code & Hcode & Hin & _)]]]].
    - rewrite Hnone. discriminate.
    - contradiction.
    - congruence.
    - rewrite Hcode. intros H. injection H as ->.
      now apply later_code in Hin. }
  repeat split.
Qed.

Lemma content_type_gate_witness :
  (handler (sampleRuntime (Some "ghp_sample") openedByAlice created)
           (requestWith (Some "text/json"))
   = ([], Normal {| resp_status := 400;
                    resp_headers := [("Content-Type", "application/json")];
                    resp_body :=
                      ErrorResponse "INVALID_CONTENT_TYPE"
                        "Content-Type must be application/json"
                        "2024-01-01T12:00:00.000Z" |})
   /\ exists response,
        snd (handler (sampleRuntime (Some "ghp_sample") openedByAlice created)
               (requestWith (Some "text/json"))) = Normal response
        /\ resp_status response = 400%Z
        /\ responseError response = Some "INVALID_CONTENT_TYPE")
  /\ forall response,
       snd (handler (sampleRuntime (Some "ghp_sample") openedByAlice created)
                    (requestWith (Some "text/plain; note=application/json")))
       = Normal response ->
       responseError response <> Some "INVALID_CONTENT_TYPE".
Proof.
  destruct content_type_gate as [_ [Hrefused [Hpassed _]]].
  split.
  - apply (Hrefused (sampleRuntime (Some "ghp_sample") openedByAlice created)
             (requestWith (Some "text/json"))); reflexivity.
  - apply (Hpassed (sampleRuntime (Some "ghp_sample") openedByAlice created)
             (requestWith (Some "text/plain; note=application/json"))); reflexivity.
Defined.

(** ** Who gets a comment *)

(** C1.  The entry point never consults [BotDetector.isBot].  Run on a pull
    request opened by alice, whom [isBot] classifies as not a bot, with a
    token configured and GitHub answering 201, it sends the review comment
    and reports it as posted. *)
Theorem comment_is_posted_for_a_human_sender :
  senderOf openedByAlice = Some aliceUser
  /\ BotDetector.isBot aliceUser = false
  /\ carriesValidPayload (sampleRuntime (Some "ghp_sample") openedByAlice created)
       sampleRequest openedByAlice
  /\ field openedByAlice "action" = Str "opened"
  /\ handler (sampleRuntime (Some "ghp_sample") openedByAlice created) sampleRequest
     = ([Fetch {| url := "https://api.github.com/repos/octo/demo/issues/12/comments";
                  method := "POST";
                  headers := [("Authorization", "Bearer ghp_sample");
                              ("Accept", "application/vnd.github.v3+json");
                              ("Content-Type", "application/json");
                              ("User-Agent", "PR-Bot-Reviewer/1.0")];
                  body := "@coderabbitai review"
                            ++ String "010"%char
                                 ("/gemini review"
                                    ++ String "010"%char
                                         ("@cubic-dev-ai review"
                                            ++ String "010"%char
                                                 "@greptile review")) |}],
        Normal {| resp_status := 200;
                  resp_headers := [("Content-Type", "application/json")];
                  resp_body :=
                    SuccessResponse
                      "Review comment posted successfully for PR #12 by alice"
                      "2024-01-01T12:00:00.000Z" |})
  /\ List.length
       (outboundCalls
          (fst (handler (sampleRuntime (Some "ghp_sample") openedByAlice created)
                  sampleRequest))) = 1%nat.
Proof.
  split; [reflexivity|]. split; [reflexivity|].
  split; [repeat split; discriminate|].
  repeat split.
Qed.

(** * Further properties of the request path *)

(** ** The early refusals *)

(** X1.  METHOD_NOT_ALLOWED is the answer exactly to the requests whose
    method is not POST.  Such a request is answered with HTTP 405, nothing
    is logged, and neither the content type nor the body is looked at; a
    POST is never answered with that code, whatever happens to it later. *)
Theorem other_methods_are_refused (rt : runtime) (req : Request) :
  (req_method req <> "POST" ->
   handler rt req
   = ([], Normal {| resp_status := 405;
                    resp_headers := [("Content-Type", "application/json")];
                    resp_body :=
                      ErrorResponse "METHOD_NOT_ALLOWED"
                        "Only POST requests are supported" (now rt) |}))
  /\ (forall response,
        snd (handler rt req) = Normal response ->
        (responseError response = Some "METHOD_NOT_ALLOWED"
         <-> req_method req <> "POST")).
Proof.
  split.
  - intros H. rewrite handler_run.
    now rewrite (proj2 (String.eqb_neq _ _) H).
  - intros response Hrun. split.
    + intros Hcode.
      destruct (answer_classified rt req response Hrun)
        as [_ [(Hnone & _) | [(_ & _ & Hm & _) | [(Hct & _)
                                                  | (code & Hc & Hin & _)]]]].
      * congruence.
      * exact Hm.
      * congruence.
      * rewrite Hc in Hcode. injection Hcode as ->.
        apply later_code in Hin. now destruct Hin as [Hin _].
    + intros Hm. rewrite handler_run, (proj2 (String.eqb_neq _ _) Hm) in Hrun.
      injection Hrun as <-. reflexivity.
Qed.

Lemma other_methods_are_refused_witness :
  handler brokenJsonRuntime getRequest
  = ([], Normal {| resp_status := 405;
                   resp_headers := [("Content-Type", "application/json")];
                   resp_body :=
                     ErrorResponse "METHOD_NOT_ALLOWED"
                       "Only POST requests are supported"
                       "2024-01-01T12:00:00.000Z" |}).
Proof.
  apply (other_methods_are_refused brokenJsonRuntime getRequest). discriminate.
Defined.

(** X2.  A POST with an accepted content type whose body is empty or made
    only of the white space that [trim] removes (code units 9 to 13, 32 and
    160) is answered with HTTP 400 and EMPTY_PAYLOAD.  The body is not
    handed to JSON.parse, and the failure is logged twice: by the parsing
    step and by the outer handler. *)
Theorem blank_body_is_an_empty_payload (rt : runtime) (req : Request) :
  req_method req = "POST" ->
  contentTypeAccepted (req_content_type req) = true ->
  blank (req_text req) = true ->
  handler rt req
  = ([ConsoleError "Payload parsing error:"; ConsoleError "Webhook handler error:"],
     Normal {| resp_status := 400;
               resp_headers := [("Content-Type", "application/json")];
               resp_body :=
                 ErrorResponse "EMPTY_PAYLOAD" "Request body is empty" (now rt) |}).
Proof.
  intros Hmethod Hct Hblank.
  rewrite handler_run, Hmethod, Hct, Hblank. reflexivity.
Qed.

Lemma blank_body_is_an_empty_payload_witness :
  handler brokenJsonRuntime blankRequest
  = ([ConsoleError "Payload parsing error:"; ConsoleError "Webhook handler error:"],
     Normal {| resp_status := 400;
               resp_headers := [("Content-Type", "application/json")];
               resp_body :=
                 ErrorResponse "EMPTY_PAYLOAD" "Request body is empty"
                   "2024-01-01T12:00:00.000Z" |}).
Proof.
  apply (blank_body_is_an_empty_payload brokenJsonRuntime blankRequest);
    reflexivity.
Defined.

(** X3.  A POST with an accepted content type whose body is not blank and
    does not parse is answered with HTTP 400 and INVALID_JSON; the message
    is the parser's own, after a fixed prefix.  Nothing is validated and
    nothing is sent. *)
Theorem unparsable_body_is_invalid_json
    (rt : runtime) (req : Request) (parserMessage : string) :
  req_method req = "POST" ->
  contentTypeAccepted (req_content_type req) = true ->
  blank (req_text req) = false ->
  JSON_parse rt (req_text req) = SyntaxError parserMessage ->
  handler rt req
  = ([ConsoleError "Payload parsing error:"; ConsoleError "Webhook handler error:"],
     Normal {| resp_status := 400;
               resp_headers := [("Content-Type", "application/json")];
               resp_body :=
                 ErrorResponse "INVALID_JSON"
                   ("Failed to parse webhook payload as JSON: " ++ parserMessage)
                   (now rt) |})
  /\ outboundCalls (fst (handler rt req)) = [].
Proof.
  intros Hmethod Hct Hblank Hparse.
  rewrite handler_run, Hmethod, Hct, Hblank, Hparse. split; reflexivity.
Qed.

Lemma unparsable_body_is_invalid_json_witness :
  handler brokenJsonRuntime sampleRequest
  = ([ConsoleError "Payload parsing error:"; ConsoleError "Webhook handler error:"],
     Normal {| resp_status := 400;
               resp_headers := [("Content-Type", "application/json")];
               resp_body :=
                 ErrorResponse "INVALID_JSON"
                   ("Failed to parse webhook payload as JSON: "
                      ++ "Unexpected token } in JSON")
                   "2024-01-01T12:00:00.000Z" |}).
Proof.
  apply (unparsable_body_is_invalid_json brokenJsonRuntime sampleRequest
           "Unexpected token } in JSON"); reflexivity.
Defined.

(** X4.  When the body parses to a payload that the validator refuses, the
    answer is HTTP 400 with the code and message of the error the validator
    threw; the refusal is logged by the validation step and by the outer
    handler, and nothing is sent. *)
Theorem refused_payload_is_a_400
    (rt : runtime) (req : Request) (payload : value)
    (message : string) (statusCode : Z) (errorCode : string) :
  req_method req = "POST" ->
  contentTypeAccepted (req_content_type req) = true ->
  blank (req_text req) = false ->
  JSON_parse rt (req_text req) = Parsed payload ->
  validateWebhookPayload payload = Throw (WebhookError message statusCode errorCode) ->
  handler rt req
  = ([ConsoleError "Payload validation error:"; ConsoleError "Webhook handler error:"],
     Normal {| resp_status := 400;
               resp_headers := [("Content-Type", "application/json")];
               resp_body := ErrorResponse errorCode message (now rt) |})
  /\ outboundCalls (fst (handler rt req)) = [].
Proof.
  intros Hmethod Hct Hblank Hparse Hrefused.
  rewrite handler_run, Hmethod, Hct, Hblank, Hparse.
  rewrite validate_in_order in Hrefused. unfold validateInOrder in Hrefused.
  destruct (firstFailure validationOrder payload) as [c|]; [|discriminate].
  injection Hrefused as <- <- <-. split; reflexivity.
Qed.

Lemma refused_payload_is_a_400_witness :
  handler (sampleRuntime (Some "ghp_sample") payloadWithoutLogin created) sampleRequest
  = ([ConsoleError "Payload validation error:"; ConsoleError "Webhook handler error:"],
     Normal {| resp_status := 400;
               resp_headers := [("Content-Type", "application/json")];
               resp_body :=
                 ErrorResponse "MISSING_SENDER_LOGIN"
                   "Sender missing required field: login"
                   "2024-01-01T12:00:00.000Z" |}).
Proof.
  apply (refused_payload_is_a_400
           (sampleRuntime (Some "ghp_sample") payloadWithoutLogin created)
           sampleRequest payloadWithoutLogin
           "Sender missing required field: login" 400 "MISSING_SENDER_LOGIN");
    reflexivity.
Defined.

(** ** From a validated payload to the answer *)

(** X9.  A valid "opened" payload, a configured token and a 2xx answer from
    GitHub give HTTP 200 with the message "Review comment posted
    successfully for PR #<number> by <login>", number and login being those
    of the payload and of its sender.  The request is the only event of the
    trace. *)
Theorem accepted_comment_is_reported
    (rt : runtime) (req : Request) (payload : value) (token : string)
    (response : fetchResponse) :
  carriesValidPayload rt req payload ->
  field payload "action" = Str "opened" ->
  env_get rt "GITHUB_TOKEN" = Some token ->
  token <> EmptyString ->
  fetch rt (requestFor rt token payload) = Resolves response ->
  ok response = true ->
  exists n user,
    field payload "number" = Num n
    /\ senderOf payload = Some user
    /\ handler rt req
       = ([Fetch (requestFor rt token payload)],
          Normal {| resp_status := 200;
                    resp_headers := [("Content-Type", "application/json")];
                    resp_body :=
                      SuccessResponse
                        ("Review comment posted successfully for PR #"
                           ++ Number_toString rt n ++ " by " ++ login user)
                        (now rt) |}).
Proof.
  intros Hreq Haction Htoken Hne Hfetch Hok.
  rewrite (opened_request_run rt req payload Hreq Haction), Htoken,
    (proj2 (String.eqb_neq _ _) Hne), Hfetch, Hok.
  destruct Hreq as (_ & _ & _ & _ & Hvalid).
  destruct (accepted_sender_shape payload Hvalid) as (n & user & Hn & Hu & Hl).
  exists n, user. rewrite Hn, Hl. repeat split. exact Hu.
Qed.

Lemma accepted_comment_is_reported_witness :
  exists n user,
    field openedByDependabot "number" = Num n
    /\ senderOf openedByDependabot = Some user
    /\ handler (sampleRuntime (Some "ghp_sample") openedByDependabot created)
               sampleRequest
       = ([Fetch (requestFor
                    (sampleRuntime (Some "ghp_sample") openedByDependabot created)
                    "ghp_sample" openedByDependabot)],
          Normal {| resp_status := 200;
                    resp_headers := [("Content-Type", "application/json")];
                    resp_body :=
                      SuccessResponse
                        ("Review comment posted successfully for PR #"
                           ++ sampleNumberToString n ++ " by " ++ login user)
                        "2024-01-01T12:00:00.000Z" |}).
Proof.
  apply (accepted_comment_is_reported
           (sampleRuntime (Some "ghp_sample") openedByDependabot created)
           sampleRequest openedByDependabot "ghp_sample"
           {| status := 201; statusText := "Created"; responseBody := BodyText "{}" |}).
  - repeat split. discriminate.
  - reflexivity.
  - reflexivity.
  - discriminate.
  - reflexivity.
  - reflexivity.
Defined.

(** X10.  When posting the comment fails, the handler builds its answer
    from the thrown error unchanged: the same code, message and status,
    with two log entries added to the trace [postComment] left.  That
    answer exists only if the status can go with a body; for a status that
    cannot (below 200 or above 599, or 204, 205, 304) building the response
    throws inside the outer handler, and the request ends without an
    answer. *)
Theorem outbound_failure_is_surfaced
    (rt : runtime) (req : Request) (payload : value) (token : string)
    (message : string) (mapped : Z) (code : string) :
  carriesValidPayload rt req payload ->
  field payload "action" = Str "opened" ->
  env_get rt "GITHUB_TOKEN" = Some token ->
  token <> EmptyString ->
  snd (GitHubApiClient.postComment rt {| GitHubApiClient.token := token |}
         (field (field payload "repository") "full_name")
         (field payload "number")
         (CommentService.generateReviewComment
            (CommentService.constructor {| GitHubApiClient.token := token |})))
  = Throw (GitHubApiError message mapped code) ->
  fst (handler rt req)
  = (fst (GitHubApiClient.postComment rt {| GitHubApiClient.token := token |}
            (field (field payload "repository") "full_name")
            (field payload "number")
            (CommentService.generateReviewComment
               (CommentService.constructor {| GitHubApiClient.token := token |})))
       ++ [ConsoleError "Comment posting error:";
           ConsoleError "Webhook handler error:"])%list
  /\ ((200 <= mapped <= 599)%Z ->
      mapped <> 204%Z -> mapped <> 205%Z -> mapped <> 304%Z ->
      snd (handler rt req)
      = Normal {| resp_status := mapped;
                  resp_headers := [("Content-Type", "application/json")];
                  resp_body := ErrorResponse code message (now rt) |})
  /\ ((mapped < 200)%Z \/ (599 < mapped)%Z
      \/ mapped = 204%Z \/ mapped = 205%Z \/ mapped = 304%Z ->
      rejects (handler rt req)).
Proof.
  intros Hreq Haction Htoken Hne Hthrown.
  rewrite (valid_request_is_processed rt req payload Hreq).
  destruct Hreq as (_ & _ & _ & _ & Hvalid).
  destruct (processPayload_run rt payload Hvalid) as (action & Ha & _ & ->).
  rewrite Haction in Ha. injection Ha as <-.
  cbn [String.eqb Ascii.eqb Bool.eqb andb]. cbn match.
  rewrite Htoken, (proj2 (String.eqb_neq _ _) Hne).
  destruct (GitHubApiClient.postComment rt _ _ _ _) as [t c].
  simpl in Hthrown. subst c.
  pose proof (carriesBody_spec mapped) as Hspec.
  cbn [try_catch bind console_error emit throw fst snd respondToError
         isKnownError knownCode errorMessage knownStatus lift app].
  split; [now rewrite <- app_assoc|].
  split.
  - intros Hrange H204 H205 H304.
    rewrite (createErrorResponse_run rt code message mapped); [reflexivity|].
    apply Hspec. auto.
  - intros Hbad.
    destruct (carriesBody mapped) eqn:Hcarries.
    + destruct Hspec as [Hspec _]. specialize (Hspec eq_refl). lia.
    + destruct (createErrorResponse_throws rt code message mapped Hcarries)
        as (name & text & E).
      unfold rejects. rewrite E. now eexists.
Qed.

Lemma outbound_failure_is_surfaced_witness :
  snd (handler (sampleRuntime (Some "ghp_sample") openedByDependabot
                  (Resolves (downstream 404 "Not Found")))
               sampleRequest)
  = Normal {| resp_status := 404;
              resp_headers := [("Content-Type", "application/json")];
              resp_body :=
                ErrorResponse "GITHUB_NOT_FOUND"
                  "Repository or pull request not found: octo/demo#12"
                  "2024-01-01T12:00:00.000Z" |}
  /\ rejects (handler (sampleRuntime (Some "ghp_sample") openedByDependabot notModified)
                sampleRequest).
Proof.
  split.
  - apply (outbound_failure_is_surfaced
             (sampleRuntime (Some "ghp_sample") openedByDependabot
                (Resolves (downstream 404 "Not Found")))
             sampleRequest openedByDependabot "ghp_sample"
             "Repository or pull request not found: octo/demo#12"
             404 "GITHUB_NOT_FOUND");
      first [reflexivity | discriminate | lia | (repeat split; discriminate)].
  - apply (outbound_failure_is_surfaced
             (sampleRuntime (Some "ghp_sample") openedByDependabot notModified)
             sampleRequest openedByDependabot "ghp_sample"
             "GitHub API request failed: 304 Not Modified - "
             304 "GITHUB_API_REQUEST_FAILED");
      first [reflexivity | discriminate | (repeat split; discriminate)
            | (right; right; right; right; reflexivity)].
Defined.

(** X11.  A GITHUB_TOKEN that is set to the empty string counts as absent:
    a valid "opened" payload is answered with HTTP 500 and
    MISSING_GITHUB_TOKEN, and nothing is sent. *)
Theorem empty_token_counts_as_missing
    (rt : runtime) (req : Request) (payload : value) :
  env_get rt "GITHUB_TOKEN" = Some EmptyString ->
  carriesValidPayload rt req payload ->
  field payload "action" = Str "opened" ->
  handler rt req
  = ([ConsoleError "Configuration error:"; ConsoleError "Webhook handler error:"],
     Normal {| resp_status := 500;
               resp_headers := [("Content-Type", "application/json")];
               resp_body :=
                 ErrorResponse "MISSING_GITHUB_TOKEN"
                   "GitHub token not found in environment variables" (now rt) |})
  /\ outboundCalls (fst (handler rt req)) = []
  /\ (forall response, snd (handler rt req) = Normal response ->
        resp_status response = 500%Z
        /\ responseError response = Some "MISSING_GITHUB_TOKEN").
Proof.
  intros Htoken Hreq Haction.
  rewrite (opened_request_run rt req payload Hreq Haction), Htoken.
  split; [reflexivity|]. split; [reflexivity|].
  intros response H. injection H as <-. split; reflexivity.
Qed.

Lemma empty_token_counts_as_missing_witness :
  handler (sampleRuntime (Some EmptyString) openedByDependabot created) sampleRequest
  = ([ConsoleError "Configuration error:"; ConsoleError "Webhook handler error:"],
     Normal {| resp_status := 500;
               resp_headers := [("Content-Type", "application/json")];
               resp_body :=
                 ErrorResponse "MISSING_GITHUB_TOKEN"
                   "GitHub token not found in environment variables"
                   "2024-01-01T12:00:00.000Z" |}).
Proof.
  apply (empty_token_counts_as_missing
           (sampleRuntime (Some EmptyString) openedByDependabot created)
           sampleRequest openedByDependabot).
  - reflexivity.
  - repeat split. discriminate.
  - reflexivity.
Defined.

(** X12.  Handling one request sends at most one request to GitHub, and it
    sends one exactly when the request carries a valid payload whose action
    is "opened" and a non-empty token is configured: such a request always
    makes the handler send the comment request of its payload, and no other
    request makes it send anything. *)
Theorem handler_sends_at_most_one_request (rt : runtime) (req : Request) :
  (forall payload token,
      carriesValidPayload rt req payload ->
      field payload "action" = Str "opened" ->
      env_get rt "GITHUB_TOKEN" = Some token ->
      token <> EmptyString ->
      outboundCalls (fst (handler rt req)) = [requestFor rt token payload])
  /\ (outboundCalls (fst (handler rt req)) <> [] ->
      exists payload token,
        carriesValidPayload rt req payload
        /\ field payload "action" = Str "opened"
        /\ env_get rt "GITHUB_TOKEN" = Some token
        /\ token <> EmptyString
        /\ outboundCalls (fst (handler rt req)) = [requestFor rt token payload])
  /\ (List.length (outboundCalls (fst (handler rt req))) <= 1)%nat.
Proof.
  assert (Hsent : outboundCalls (fst (handler rt req)) = []
                  \/ exists payload token,
                       carriesValidPayload rt req payload
                       /\ field payload "action" = Str "opened"
                       /\ env_get rt "GITHUB_TOKEN" = Some token
                       /\ token <> EmptyString
                       /\ outboundCalls (fst (handler rt req))
                          = [requestFor rt token payload]).
  { pose proof (handler_runs rt req) as R.
    inversion R as
      [ Hm
      | Hm Hct
      | Hm Hct Hb
      | parserMessage Hm Hct Hb Hp
      | payload c Hm Hct Hb Hp Hf
      | payload action Hreq Ha Hne
      | payload Hreq Ha Htok
      | payload token downstreamResponse n user Hreq Ha Htok Hne Hfetch Hok Hn Hu
      | payload token downstreamResponse errorText message mapped code
          Hreq Ha Htok Hne Hfetch Hok Hbody Hshape Hcarries
      | payload token downstreamResponse errorText message mapped code name text
          Hreq Ha Htok Hne Hfetch Hok Hbody Hshape Hcarries
      | payload token name message text code Hreq Ha Htok Hne Hhow Hshape ];
      try (left; reflexivity);
      right; exists payload, token; repeat (split; [assumption|]); reflexivity. }
  split.
  - intros payload token Hreq Ha Htok Hne.
    exact (opened_payload_is_posted_for_any_sender rt req payload token
             Hreq Ha Htok Hne).
  - split.
    + intros Hsome. destruct Hsent as [Hnone | Hone]; [contradiction | exact Hone].
    + destruct Hsent as [-> | (payload & token & _ & _ & _ & _ & ->)]; simpl; lia.
Qed.

Lemma handler_sends_at_most_one_request_witness :
  outboundCalls
    (fst (handler (sampleRuntime (Some "ghp_sample") openedByDependabot aborted)
            sampleRequest))
  = [requestFor (sampleRuntime (Some "ghp_sample") openedByDependabot aborted)
       "ghp_sample" openedByDependabot].
Proof.
  apply (proj1 (handler_sends_at_most_one_request
                  (sampleRuntime (Some "ghp_sample") openedByDependabot aborted)
                  sampleRequest)).
  - repeat split. discriminate.
  - reflexivity.
  - reflexivity.
  - discriminate.
Defined.

(** X13.  Whenever the handler answers, the answer is well formed: JSON,
    stamped with the clock, a success envelope with status 200 or an error
    envelope with a status outside the 2xx class.  It fails to answer in
    one case only: a valid "opened" payload, a token, and a downstream
    response with a readable body whose status is below 200 or is 304.  That
    status is handed to [new Response] with a body, which throws inside the
    outer handler, so the request ends with a thrown error. *)
Theorem handler_answers_unless_status_has_no_body (rt : runtime) (req : Request) :
  (forall response,
      snd (handler rt req) = Normal response -> wellFormedResponse rt response)
  /\ (rejects (handler rt req)
      <-> exists payload token response errorText,
            carriesValidPayload rt req payload
            /\ field payload "action" = Str "opened"
            /\ env_get rt "GITHUB_TOKEN" = Some token
            /\ token <> EmptyString
            /\ fetch rt (requestFor rt token payload) = Resolves response
            /\ responseBody response = BodyText errorText
            /\ ((status response < 200)%Z \/ status response = 304%Z)).
Proof.
  split.
  - intros response Hrun. now apply (answer_classified rt req response).
  - split.
    + intros [e He]. exact (rejection_classified rt req e He).
    + intros (payload & token & response & errorText
              & Hreq & Ha & Htok & Hne & Hfetch & Hbody & Hstatus).
      assert (Hok : ok response = false).
      { unfold ok. apply andb_false_iff. rewrite !Z.leb_gt. lia. }
      rewrite (opened_request_run rt req payload Hreq Ha), Htok,
        (proj2 (String.eqb_neq _ _) Hne), Hfetch, Hok, Hbody.
      destruct (apiError_cases rt (field (field payload "repository") "full_name")
                  (field payload "number") response errorText Hok)
        as (m & st & c & Hshape & _ & _ & Hiff).
      unfold answerTo. rewrite Hshape.
      cbn [knownCode errorMessage knownStatus].
      destruct (createErrorResponse_throws rt c m st (proj2 Hiff Hstatus))
        as (name & text & E).
      unfold rejects. cbn [snd]. rewrite E. now eexists.
Qed.

Lemma handler_answers_unless_status_has_no_body_witness :
  rejects (handler (sampleRuntime (Some "ghp_sample") openedByDependabot notModified)
             sampleRequest).
Proof.
  apply (proj2 (handler_answers_unless_status_has_no_body
                  (sampleRuntime (Some "ghp_sample") openedByDependabot notModified)
                  sampleRequest)).
  exists openedByDependabot, "ghp_sample",
    {| status := 304; statusText := "Not Modified"; responseBody := BodyText "" |},
    EmptyString.
  split; [repeat split; discriminate|].
  repeat (split; [first [reflexivity | discriminate]|]).
  right. reflexivity.
Defined.

(** X14.  The catch-all answer INTERNAL_ERROR is never given: JSON.parse
    failing with a SyntaxError and fetch failing with an error of the
    platform are both turned into coded errors, and after validation no
    member read of the handler can throw. *)
Theorem internal_error_is_never_answered
    (rt : runtime) (req : Request) (response : Response) :
  snd (handler rt req) = Normal response ->
  responseError response <> Some "INTERNAL_ERROR".
Proof.
  intros Hrun.
  destruct (answer_classified rt req response Hrun)
    as [_ [(Hnone & _) | [(Hcode & _) | [(Hcode & _) | (code & Hcode & Hin & _)]]]];
    rewrite ?Hnone, ?Hcode; try discriminate.
  intros H. injection H as ->. now apply later_code in Hin.
Qed.

Lemma internal_error_is_never_answered_witness :
  responseError
    {| resp_status := 400;
       resp_headers := [("Content-Type", "application/json")];
       resp_body :=
         ErrorResponse "INVALID_JSON"
           ("Failed to parse webhook payload as JSON: " ++ "Unexpected token } in JSON")
           "2024-01-01T12:00:00.000Z" |}
  <> Some "INTERNAL_ERROR".
Proof.
  apply (internal_error_is_never_answered brokenJsonRuntime sampleRequest).
  reflexivity.
Defined.

(** ** What gets logged *)

(** X17.  A 200 answer comes with nothing logged: no [console.error] entry
    is in the trace of a request that succeeds.  An error answer is logged
    by the outer handler, except for the two refusals made before the body
    is read (METHOD_NOT_ALLOWED and INVALID_CONTENT_TYPE), which are
    returned directly. *)
Theorem successes_are_silent_and_errors_logged
    (rt : runtime) (req : Request) (trace : list event) (response : Response) :
  handler rt req = (trace, Normal response) ->
  (resp_status response = 200%Z ->
   forall label, ~ In (ConsoleError label) trace)
  /\ (forall code,
        responseError response = Some code ->
        code <> "METHOD_NOT_ALLOWED" ->
        code <> "INVALID_CONTENT_TYPE" ->
        In (ConsoleError "Webhook handler error:") trace).
Proof.
  intros Hrun.
  assert (Hsnd : snd (handler rt req) = Normal response) by now rewrite Hrun.
  assert (Hfst : fst (handler rt req) = trace) by now rewrite Hrun.
  destruct (answer_classified rt req response Hsnd)
    as [_ [(Hnone & _ & Hquiet)
          | [(Hcode & Hstatus & _ & Hempty)
            | [(Hcode & Hstatus & _ & _ & Hempty)
              | (code & Hcode & Hin & H2xx & _ & _ & Hlogged)]]]];
    rewrite Hfst in *.
  - split; [intros _; exact Hquiet|].
    intros code Hc. rewrite Hnone in Hc. discriminate Hc.
  - split; [rewrite Hstatus; discriminate|].
    intros code Hc Hm _. rewrite Hcode in Hc. injection Hc as <-. now elim Hm.
  - split; [rewrite Hstatus; discriminate|].
    intros code Hc _ Hct. rewrite Hcode in Hc. injection Hc as <-. now elim Hct.
  - split.
    + intros Hstatus. rewrite Hstatus in H2xx. discriminate H2xx.
    + intros _ _ _ _. exact Hlogged.
Qed.

Lemma successes_are_silent_and_errors_logged_witness :
  (resp_status
     {| resp_status := 400;
        resp_headers := [("Content-Type", "application/json")];
        resp_body :=
          ErrorResponse "EMPTY_PAYLOAD" "Request body is empty"
            "2024-01-01T12:00:00.000Z" |}
   = 200%Z ->
   forall label,
     ~ In (ConsoleError label)
         [ConsoleError "Payload parsing error:"; ConsoleError "Webhook handler error:"])
  /\ (forall code,
        responseError
          {| resp_status := 400;
             resp_headers := [("Content-Type", "application/json")];
             resp_body :=
               ErrorResponse "EMPTY_PAYLOAD" "Request body is empty"
                 "2024-01-01T12:00:00.000Z" |} = Some code ->
        code <> "METHOD_NOT_ALLOWED" ->
        code <> "INVALID_CONTENT_TYPE" ->
        In (ConsoleError "Webhook handler error:")
          [ConsoleError "Payload parsing error:"; ConsoleError "Webhook handler error:"]).
Proof.
  apply (successes_are_silent_and_errors_logged brokenJsonRuntime blankRequest).
  reflexivity.
Defined.
(** ** What the validator looks at *)

Section ValidatorReads.

Lemma type_check_code (payload : value) :
  thrownCode (validateWebhookPayload payload) = Some "INVALID_PAYLOAD_TYPE"
  <-> nonNullObject payload = false.
Proof.
  rewrite validate_in_order.
  unfold validateInOrder, firstFailure, validationOrder. cbn [find].
  change (passes PayloadType payload) with (nonNullObject payload).
  destruct (nonNullObject payload); cbn [negb].
  - repeat (match goal with
            | |- context [if negb (passes ?c payload) then _ else _] =>
                destruct (passes c payload); cbn [negb]
            end);
      simpl; split; discriminate.
  - simpl. split; reflexivity.
Qed.

Lemma member_app_last (members : list (string * value)) (key name : string)
    (v : value) :
  member (members ++ [(key, v)]) name
  = if String.eqb key name then Some v else member members name.
Proof.
  induction members as [|[k x] rest IH]; simpl.
  - reflexivity.
  - rewrite IH. destruct (String.eqb key name); reflexivity.
Qed.

Lemma field_of_other_member (members : list (string * value)) (key name : string)
    (v v' : value) :
  key <> name ->
  get (Obj (members ++ [(key, v)])) name = get (Obj (members ++ [(key, v')])) name.
Proof.
  intros H. simpl. rewrite !member_app_last.
  now rewrite (proj2 (String.eqb_neq _ _) H).
Qed.

Lemma field_of_last_member (members : list (string * value)) (key : string)
    (v : value) :
  field (Obj (members ++ [(key, v)])) key = v.
Proof.
  unfold field. simpl. now rewrite member_app_last, String.eqb_refl.
Qed.

Lemma find_ext {A : Type} (f g : A -> bool) (l : list A) :
  (forall x, f x = g x) -> find f l = find g l.
Proof.
  intros H. induction l as [|x l IH]; simpl; [reflexivity|].
  now rewrite H, IH.
Qed.

End ValidatorReads.

(** X15.  The first check refuses exactly the values that are not objects:
    undefined, null, booleans, numbers and strings are answered with
    INVALID_PAYLOAD_TYPE, while an array passes it; a top-level array is
    then always refused for its missing action, never for its type. *)
Theorem type_check_refuses_all_but_objects_and_arrays :
  (forall payload,
      thrownCode (validateWebhookPayload payload) = Some "INVALID_PAYLOAD_TYPE"
      <-> ~ ((exists items, payload = Arr items)
             \/ (exists members, payload = Obj members)))
  /\ (forall items,
        validateWebhookPayload (Arr items) = Throw (rejection Action)).
Proof.
  split.
  - intros payload. rewrite type_check_code. unfold nonNullObject.
    destruct payload as [| | b | n | s | items | members]; simpl;
      rewrite ?andb_false_r.
    1-5: split; [intros _ [[x Hx] | [x Hx]]; discriminate Hx | reflexivity].
    + split; [discriminate | intros H; exfalso; apply H; left; now exists items].
    + split; [discriminate | intros H; exfalso; apply H; right; now exists members].
  - intros items. reflexivity.
Qed.

(** X16.  The validator and the rest of the handler never read inside
    [pull_request]: it has to be a non-null object, and which one makes no
    difference.  Setting it to any other non-null object changes neither
    the verdict of the validator nor what is done with the payload, so the
    actor that counts is the top-level [sender], not [pull_request.user]. *)
Theorem pull_request_contents_are_not_read
    (rt : runtime) (members : list (string * value)) (pr pr' : value) :
  nonNullObject pr = true ->
  nonNullObject pr' = true ->
  validateWebhookPayload (Obj (members ++ [("pull_request", pr)]))
  = validateWebhookPayload (Obj (members ++ [("pull_request", pr')]))
  /\ processPayload rt (Obj (members ++ [("pull_request", pr)]))
     = processPayload rt (Obj (members ++ [("pull_request", pr')])).
Proof.
  intros Hpr Hpr'.
  assert (Hget : forall name, "pull_request" <> name ->
                   get (Obj (members ++ [("pull_request", pr)])) name
                   = get (Obj (members ++ [("pull_request", pr')])) name).
  { intros name Hname. now apply field_of_other_member. }
  assert (Hfield : forall name, "pull_request" <> name ->
                     field (Obj (members ++ [("pull_request", pr)])) name
                     = field (Obj (members ++ [("pull_request", pr')])) name).
  { intros name Hname. unfold field. now rewrite (Hget name Hname). }
  split.
  - rewrite !validate_in_order. unfold validateInOrder, firstFailure.
    rewrite (find_ext _ (fun c => negb (passes c (Obj (members ++ [("pull_request", pr')])))));
      [reflexivity|].
    intros c. f_equal.
    destruct c; cbn [passes statedPasses]; unfold within;
      rewrite ?(Hfield "action"), ?(Hfield "repository"), ?(Hfield "number"),
        ?(Hfield "sender") by discriminate;
      try reflexivity.
    now rewrite !field_of_last_member, Hpr, Hpr'.
  - unfold processPayload.
    rewrite (Hget "action"), (Hget "repository"), (Hget "number"),
      (Hget "sender") by discriminate.
    reflexivity.
Qed.

Lemma pull_request_contents_are_not_read_witness :
  validateWebhookPayload
    (Obj ([("action", Str "opened"); ("number", Num (ofZ 12));
           ("repository", Obj [("full_name", Str "octo/demo")]);
           ("sender", alice)] ++ [("pull_request", Obj [("user", dependabot)])]))
  = validateWebhookPayload
      (Obj ([("action", Str "opened"); ("number", Num (ofZ 12));
             ("repository", Obj [("full_name", Str "octo/demo")]);
             ("sender", alice)] ++ [("pull_request", Arr [])]))
  /\ processPayload brokenJsonRuntime
       (Obj ([("action", Str "opened"); ("number", Num (ofZ 12));
              ("repository", Obj [("full_name", Str "octo/demo")]);
              ("sender", alice)] ++ [("pull_request", Obj [("user", dependabot)])]))
     = processPayload brokenJsonRuntime
         (Obj ([("action", Str "opened"); ("number", Num (ofZ 12));
                ("repository", Obj [("full_name", Str "octo/demo")]);
                ("sender", alice)] ++ [("pull_request", Arr [])])).
Proof.
  apply (pull_request_contents_are_not_read brokenJsonRuntime
           [("action", Str "opened"); ("number", Num (ofZ 12));
            ("repository", Obj [("full_name", Str "octo/demo")]);
            ("sender", alice)]
           (Obj [("user", dependabot)]) (Arr [])); reflexivity.
Defined.

